(** * 0g-storage-homework: chunked upload / download driver

    A shallow embedding of the two programs of the repository:

    - [src/main.go]: the SDK driver.  It creates a 4 GiB test file, reads it
      through a 400 MiB buffer, uploads every window that was read with
      [StorageClient.Upload], collects the returned roots and then downloads
      every collected root again.
    - [src/unnamed/part_000]: the CLI driver.  It runs the external
      [0g-storage-client] binary and recovers the root of the upload from the
      text the binary printed.

    The storage SDK, the network behind it and the external binary are not
    part of the repository: they are parameters of the embedding (the record
    [Sdk], the function [runCommand] of the CLI driver).  Every call the SDK
    driver makes to the SDK and every line it prints is recorded, in program
    order, in a trace of [Event]s. *)

From Stdlib Require Import Strings.Byte Strings.Ascii Strings.String NArith Lia.
From stdpp Require Import base list strings gmap pretty.

(** ** Constants of [src/main.go], lines 21-29 *)

Definition LargeFileSize : N := 4 * 1024 * 1024 * 1024.
Definition ChunkSize : N := 400 * 1024 * 1024.
Definition UploadTaskSize : N := 16 * 1024 * 1024.

(** ** Go values *)

(** A Go [error]: either one produced by the SDK or the runtime, or one
    wrapped by [fmt.Errorf("<ctx>: %w", err)]. *)
Inductive error : Type :=
  | SdkError (msg : string)
  | Errorf (ctx : string) (inner : error).

(** A Go result pair [(v, err)]: exactly one of the two is meaningful. *)
Inductive result (A : Type) : Type :=
  | Ok (a : A)
  | Err (e : error).
Arguments Ok {A} a.
Arguments Err {A} e.

(** [transfer.FinalityRequirement] of the SDK. *)
Inductive FinalityRequirement : Type :=
  | FileFinalized
  | TransactionPacked
  | WaitNothing.

(** The fields of [transfer.UploadOption] that [Upload] sets. *)
Record UploadOption : Type := mkUploadOption {
  FinalityRequired : FinalityRequirement;
  ExpectedReplica : N;
  TaskSize : N;
  Method : string;
  FullTrusted : bool
}.

(** ** The SDK and the network behind it

    [Net] is the state of the remote network, [Iter] the SDK's
    [core.IterableData].  [MerkleTree] stands for
    [core.MerkleTree(iter)] followed by [tree.Root().Hex()], and the string
    [idx_Upload] returns for [txHash.Hex()].  [idx_Download] returns the bytes
    it wrote to the output file. *)
Record Sdk : Type := mkSdk {
  Net : Type;
  Iter : Type;
  NewDataInMemory : list byte -> result Iter;
  idx_Upload : Net -> Iter -> UploadOption -> Net * result string;
  MerkleTree : Iter -> result string;
  idx_Download : Net -> string -> string -> bool -> Net * result (list byte)
}.

(** ** Observable behaviour of [main] *)

Inductive Event : Type :=
  | PrintStep (k : nat)                                 (* lines 74, 97 *)
  | PrintUploading (i : nat)                            (* line 76 *)
  | SdkUpload (data : list byte) (opt : UploadOption)
              (res : result string)                     (* line 145 *)
  | PrintUploaded (root txHash : string)                (* line 93 *)
  | FatalRead (e : error)                               (* line 80 *)
  | FatalUpload (i : nat) (e : error)                   (* line 89 *)
  | PrintDownloading (i : nat) (shown : string)         (* line 100 *)
  | SdkDownload (root outFile : string) (withProof : bool)
                (res : result (list byte))              (* line 168 *)
  | LogDownloadFailed (e : error)                       (* line 103 *)
  | PrintDownloaded (outFile : string)                  (* line 105 *)
  | RemoveFile (outFile : string)                       (* line 106 *)
  | PrintBanner.                                        (* lines 110-112 *)

(** How the process ends: it returns from [main], [log.Fatal] calls
    [os.Exit(1)], or a slice expression is out of range. *)
Inductive Exit : Type :=
  | ExitOk
  | ExitFatal
  | ExitPanic.

(** ** [io.ReadFull] on a regular file

    The open file is the list of the bytes not yet read.  Reads of a regular
    file are taken not to fail, so the only errors are the two end-of-file
    ones. *)
Inductive read_error : Type :=
  | EOF
  | ErrUnexpectedEOF
  | ErrIO (e : error).

Definition ReadFull (file buf : list byte)
  : list byte * list byte * nat * option read_error :=
  let n := length buf `min` length file in
  let err :=
    if Nat.eqb n (length buf) then None
    else if Nat.eqb n 0 then Some EOF
    else Some ErrUnexpectedEOF in
  (drop n file, take n file ++ drop n buf, n, err).

Section Driver.

Context (c : Sdk).

(** ** [StorageClient.Upload], lines 138-163 *)

Definition upload_option : UploadOption :=
  {| FinalityRequired := FileFinalized;
     ExpectedReplica := 1;
     TaskSize := UploadTaskSize;
     Method := "min";
     FullTrusted := true |}.

Definition Upload (n : Net c) (data : list byte)
  : Net c * list Event * result (string * string) :=
  match NewDataInMemory c data with
  | Err e => (n, [], Err (Errorf "创建内存数据失败" e))
  | Ok iter =>
      let '(n', r) := idx_Upload c n iter upload_option in
      let ev := [SdkUpload data upload_option r] in
      match r with
      | Err e => (n', ev, Err (Errorf "上传失败" e))
      | Ok txHash =>
          match MerkleTree c iter with
          | Err e => (n', ev, Err (Errorf "计算 Merkle Root 失败" e))
          | Ok root => (n', ev, Ok (txHash, root))
          end
      end
  end.

(** ** [StorageClient.Download], lines 166-169 *)

Definition Download (n : Net c) (root outFile : string)
  : Net c * list Event * option error :=
  let '(n', r) := idx_Download c n root outFile false in
  (n', [SdkDownload root outFile false r],
   match r with Ok _ => None | Err e => Some e end).

(** ** The state of [main] between line 70 and line 112 *)

Record State : Type := mkState {
  st_net : Net c;
  st_file : list byte;
  st_buffer : list byte;
  st_roots : list string;
  st_trace : list Event
}.

Inductive Flow : Type :=
  | Continue
  | Break
  | Stop (e : Exit).

Definition log (s : State) (evs : list Event) : State :=
  {| st_net := st_net s; st_file := st_file s; st_buffer := st_buffer s;
     st_roots := st_roots s; st_trace := st_trace s ++ evs |}.

(** The body of the upload loop, lines 76-93, at loop counter [i]. *)
Definition upload_body (i : nat) (s : State) : State * Flow :=
  let s := log s [PrintUploading (i + 1)] in
  let '(file', buf', n, err) := ReadFull (st_file s) (st_buffer s) in
  let s := {| st_net := st_net s; st_file := file'; st_buffer := buf';
              st_roots := st_roots s; st_trace := st_trace s |} in
  match err with
  | Some (ErrIO e) => (log s [FatalRead e], Stop ExitFatal)
  | _ =>
      if Nat.eqb n 0 then (s, Break)
      else
        let '(n', evs, r) := Upload (st_net s) (take n (st_buffer s)) in
        let s := {| st_net := n'; st_file := st_file s;
                    st_buffer := st_buffer s; st_roots := st_roots s;
                    st_trace := st_trace s ++ evs |} in
        match r with
        | Err e => (log s [FatalUpload (i + 1) e], Stop ExitFatal)
        | Ok (txHash, root) =>
            ({| st_net := st_net s; st_file := st_file s;
                st_buffer := st_buffer s;
                st_roots := st_roots s ++ [root];
                st_trace := st_trace s ++ [PrintUploaded root txHash] |},
             Continue)
        end
  end.

(** [for i := i; i < i + k; i++ { body }] *)
Fixpoint upload_loop (k i : nat) (s : State) : State * option Exit :=
  match k with
  | 0 => (s, None)
  | S k' =>
      match upload_body i s with
      | (s', Continue) => upload_loop k' (S i) s'
      | (s', Break) => (s', None)
      | (s', Stop e) => (s', Some e)
      end
  end.

(** The body of the download loop, lines 99-107.  [root[:10]] panics when
    the root has fewer than ten bytes, before anything is printed. *)
Definition outFile_of (i : nat) : string :=
  "downloaded_chunk_" +:+ pretty i +:+ ".bin".

Definition download_body (i : nat) (root : string) (n : Net c)
  : Net c * list Event * option Exit :=
  let outFile := outFile_of i in
  if Nat.ltb (String.length root) 10 then (n, [], Some ExitPanic)
  else
    let shown := substring 0 10 root +:+ "..." in
    let '(n', evs, err) := Download n root outFile in
    (n', PrintDownloading (i + 1) shown :: evs ++
         match err with
         | Some e => [LogDownloadFailed e]
         | None => [PrintDownloaded outFile; RemoveFile outFile]
         end,
     None).

(** [for i, root := range roots { body }], counting from [i]. *)
Fixpoint download_loop (i : nat) (roots : list string) (n : Net c)
  : Net c * list Event * option Exit :=
  match roots with
  | [] => (n, [], None)
  | root :: rest =>
      match download_body i root n with
      | (n', evs, Some e) => (n', evs, Some e)
      | (n', evs, None) =>
          let '(n'', evs', e) := download_loop (S i) rest n' in
          (n'', evs ++ evs', e)
      end
  end.

(** ** [main] from line 70 on, for a file [file] opened for reading and a
    buffer of [F] bytes. *)

Definition make (F : nat) : list byte := replicate F x00.

Definition init (n : Net c) (file : list byte) (F : nat) : State :=
  {| st_net := n; st_file := file; st_buffer := make F;
     st_roots := []; st_trace := [PrintStep 2] |}.

Definition upload_phase (n : Net c) (file : list byte) (F : nat)
  : State * option Exit :=
  upload_loop 10 0 (init n file F).

Definition transfer (n : Net c) (file : list byte) (F : nat)
  : State * Exit :=
  match upload_phase n file F with
  | (s, Some e) => (s, e)
  | (s, None) =>
      let s := log s [PrintStep 3] in
      let '(n', evs, e) := download_loop 0 (st_roots s) (st_net s) in
      let s := {| st_net := n'; st_file := st_file s;
                  st_buffer := st_buffer s; st_roots := st_roots s;
                  st_trace := st_trace s ++ evs |} in
      match e with
      | Some e => (s, e)
      | None => (log s [PrintBanner], ExitOk)
      end
  end.

(** [main] itself reads through a buffer of [ChunkSize] bytes. *)
Definition chunk_len : nat := N.to_nat ChunkSize.

Definition main_from (n : Net c) (file : list byte) : State * Exit :=
  transfer n file chunk_len.

End Driver.

Arguments st_net {c} s.
Arguments st_file {c} s.
Arguments st_buffer {c} s.
Arguments st_roots {c} s.
Arguments st_trace {c} s.

(** The file [createDummyFile] leaves behind (lines 202-213): [size] bytes,
    all zero. *)
Definition createDummyFile (size : N) : list byte :=
  replicate (N.to_nat size) x00.

(** ** Reading a trace *)

Definition upload_of (e : Event) : option (list byte) :=
  match e with SdkUpload d _ _ => Some d | _ => None end.

Definition uploads (tr : list Event) : list (list byte) := omap upload_of tr.



(** The [j]-th window of [F] bytes of [src]: the byte range
    [[j * F, j * F + F)], cut at the end of [src]. *)
Definition fragment (F : nat) (src : list byte) (j : nat) : list byte :=
  take F (drop (j * F) src).

(** The first [m] windows, in index order. *)
Definition fragments (F : nat) (src : list byte) (m : nat)
  : list (list byte) :=
  fragment F src <$> seq 0 m.

(** ** An ideal network

    A content-addressed store that never fails: an upload stores the payload
    under its root, a download returns what is stored under the requested
    root.  [mroot] is the root function the store and [core.MerkleTree]
    share.  As in the SDK, [NewDataInMemory] refuses an empty payload. *)
Definition ideal (mroot : list byte -> string) : Sdk :=
  {| Net := gmap string (list byte);
     Iter := list byte;
     NewDataInMemory d :=
       match d with
       | [] => Err (SdkError "data is empty")
       | _ => Ok d
       end;
     idx_Upload n it _ := (<[mroot it := it]> n, Ok "0xtx");
     MerkleTree it := Ok (mroot it);
     idx_Download n root _ _ :=
       (n, match n !! root with
           | Some d => Ok d
           | None => Err (SdkError "file not found")
           end) |}.

(** A collision-free stand-in for the Merkle root: the payload behind a
    ten-character tag. *)
Definition tag_root (d : list byte) : string :=
  "0xmerkle::" +:+ string_of_list_byte d.

(** Seven bytes to run the driver on. *)
Definition sample : list byte := [x01; x02; x03; x04; x05; x06; x07].


(** An SDK whose local Merkle tree computation fails after the upload went
    through; its network state counts the uploads it has stored. *)
Definition merkle_fails : Sdk :=
  {| Net := nat;
     Iter := list byte;
     NewDataInMemory d := Ok d;
     idx_Upload n it _ := (S n, Ok "0xtx");
     MerkleTree it := Err (SdkError "merkle tree");
     idx_Download n _ _ _ := (n, Err (SdkError "no node serves the root")) |}.

(** The roots [main] asks the SDK to download, in call order. *)
Definition request_of (e : Event) : option string :=
  match e with SdkDownload root _ _ _ => Some root | _ => None end.

Definition requested (tr : list Event) : list string := omap request_of tr.

(** [c] with its network replaced: the local computations
    ([NewDataInMemory], [MerkleTree]) stay, the remote calls change. *)
Definition with_network (c : Sdk) (Net' : Type)
    (up : Net' -> Iter c -> UploadOption -> Net' * result string)
    (down : Net' -> string -> string -> bool -> Net' * result (list byte))
  : Sdk :=
  {| Net := Net';
     Iter := Iter c;
     NewDataInMemory := NewDataInMemory c;
     idx_Upload := up;
     MerkleTree := MerkleTree c;
     idx_Download := down |}.

(** [r] is the root the SDK computes locally for the payload [d]. *)
Definition root_rel (c : Sdk) (d : list byte) (r : string) : Prop :=
  exists it, NewDataInMemory c d = Ok it /\ MerkleTree c it = Ok r.

(** The invariant of the upload loop before iteration [i], for a source
    [src] read through a buffer of [F] bytes. *)
Definition Inv (c : Sdk) (src : list byte) (F i : nat) (s : State c) : Prop :=
  length (st_buffer s) = F /\
  st_file s = drop (i * F) src /\
  uploads (st_trace s) = fragments F src i /\
  Forall2 (root_rel c) (fragments F src i) (st_roots s) /\
  Forall (fun d => d <> []) (fragments F src i).

(** Every download call in the trace is followed by its report: the logged
    error, or the success line and the removal of the output file. *)
Fixpoint reported (tr : list Event) : Prop :=
  match tr with
  | [] => True
  | SdkDownload _ out _ res :: rest =>
      match res with
      | Err e => exists rest', rest = LogDownloadFailed e :: rest'
      | Ok _ =>
          exists rest', rest = PrintDownloaded out :: RemoveFile out :: rest'
      end /\ reported rest
  | _ :: rest => reported rest
  end.

(** The store of the ideal network after the payloads [ds] were uploaded. *)
Definition stored (mroot : list byte -> string)
    (n : gmap string (list byte)) (ds : list (list byte))
  : gmap string (list byte) :=
  foldl (fun n d => <[mroot d := d]> n) n ds.


(** * The CLI driver, [src/unnamed/part_000] *)

Module Cli.

(** Constants, lines 13-29. *)
Definition ClientBinaryPath : string := "./0g-storage-client.exe".
Definition JsonRpc : string := "https://evm-rpc.0g.ai".
Definition IndexerUrl : string := "https://indexer-storage-testnet.0g.ai".
Definition PrivateKey : string := "".
Definition TestFileName : string := "test_4gb_data.bin".
Definition FileSize : N := 4 * 1024 * 1024 * 1024.
Definition FragmentSize : N := 400 * 1024 * 1024.

(** What the external process does when it is started: it cannot be
    started, or it prints [lines] (the tokens [bufio.Scanner] yields from
    its combined stdout and stderr) and [cmd.Wait] returns [wait]. *)
Inductive ProcRun : Type :=
  | StartFails (e : error)
  | Runs (lines : list string) (wait : option error).

Inductive Event : Type :=
  | PrintStep (k : nat)                          (* lines 33, 44, 72 *)
  | PrintGenerateFailed (e : error)              (* line 36 *)
  | PrintGenerated                               (* line 41 *)
  | RunCommand (command : string) (args : list string)  (* line 107 *)
  | PrintLine (m : string)                       (* line 121 *)
  | PrintUploadFailed (e : error)                (* line 59 *)
  | PrintNoRootHash                              (* line 66 *)
  | PrintUploaded (rootHash : string)            (* line 69 *)
  | PrintDownloadFailed (e : error)              (* line 83 *)
  | PrintDownloaded (name : string).             (* line 86 *)

(** The text [runCommand] accumulates: every line and a newline. *)
Definition fullOutput (lines : list string) : string :=
  foldr (fun m acc => m +:+ String "010"%char acc) "" lines.

(** [runCommand], lines 105-129. *)
Definition runCommand (proc : string -> list string -> ProcRun)
    (command : string) (args : list string)
  : list Event * (string * option error) :=
  match proc command args with
  | StartFails e => ([RunCommand command args], ("", Some e))
  | Runs lines wait =>
      (RunCommand command args :: (PrintLine <$> lines),
       (fullOutput lines, wait))
  end.

(** ** [parseRootHash], lines 131-138

    The pattern is [root[:\s]+(0x[a-fA-F0-9]{64})].  The class [[:\s]]
    (colon, space, tab, line feed, form feed, carriage return) does not
    contain ['0'], so at a given start the only candidate is: the literal
    [root], the maximal non-empty run of class characters, the literal
    [0x], 64 hexadecimal digits.  [FindStringSubmatch] returns the
    leftmost match. *)

Definition is_sep (a : ascii) : bool :=
  bool_decide
    (a ∈ [":"%char; " "%char; "009"%char; "010"%char; "012"%char;
          "013"%char]).

Definition is_hex (a : ascii) : bool :=
  let n := nat_of_ascii a in
  (Nat.leb 48 n && Nat.leb n 57) || (Nat.leb 65 n && Nat.leb n 70)
  || (Nat.leb 97 n && Nat.leb n 102).

Fixpoint strip_prefix (p s : string) : option string :=
  match p, s with
  | EmptyString, _ => Some s
  | String a p', String b s' =>
      if bool_decide (a = b) then strip_prefix p' s' else None
  | String _ _, EmptyString => None
  end.

Fixpoint span_seps (s : string) : string * string :=
  match s with
  | String a t =>
      if is_sep a then let '(seps, rest) := span_seps t in
                       (String a seps, rest)
      else (EmptyString, s)
  | EmptyString => (EmptyString, EmptyString)
  end.

Fixpoint take_hex (k : nat) (s : string) : option string :=
  match k with
  | 0 => Some EmptyString
  | S k' =>
      match s with
      | String a t =>
          if is_hex a then String a <$> take_hex k' t else None
      | EmptyString => None
      end
  end.

(** A match that starts at the first character of [s]: the whole match and
    the capture group. *)
Definition match_here (s : string) : option (string * string) :=
  r1 ← strip_prefix "root" s;
  let '(seps, r2) := span_seps r1 in
  if bool_decide (seps = EmptyString) then None
  else
    r3 ← strip_prefix "0x" r2;
    h ← take_hex 64 r3;
    Some ("root" +:+ seps +:+ "0x" +:+ h, "0x" +:+ h).

Fixpoint FindStringSubmatch (s : string) : list string :=
  match match_here s with
  | Some (whole, group) => [whole; group]
  | None =>
      match s with
      | EmptyString => []
      | String _ t => FindStringSubmatch t
      end
  end.

Definition parseRootHash (log : string) : string :=
  let matches := FindStringSubmatch log in
  if Nat.ltb 1 (length matches) then nth 1 matches "" else "".

(** ** [main], lines 31-87

    [gen] is what [generateLargeFile] returns, [proc] the behaviour of the
    client binary. *)

Definition uploadArgs : list string :=
  ["upload"; "--url"; JsonRpc; "--key"; PrivateKey; "--file"; TestFileName;
   "--fragment-size"; pretty FragmentSize; "--indexer"; IndexerUrl].

Definition downloadArgs (rootHash : string) : list string :=
  ["download"; "--root"; rootHash; "--url"; JsonRpc;
   "--indexer"; IndexerUrl; "--output"; "downloaded_" +:+ TestFileName].

Definition main (gen : option error)
    (proc : string -> list string -> ProcRun) : list Event :=
  [PrintStep 1] ++
  match gen with
  | Some e => [PrintGenerateFailed e]
  | None =>
      let '(evs, (output, err)) :=
        runCommand proc ClientBinaryPath uploadArgs in
      [PrintGenerated; PrintStep 2] ++ evs ++
      match err with
      | Some e => [PrintUploadFailed e]
      | None =>
          let rootHash := parseRootHash output in
          if bool_decide (rootHash = "") then [PrintNoRootHash]
          else
            let '(evs', (_, err')) :=
              runCommand proc ClientBinaryPath (downloadArgs rootHash) in
            [PrintUploaded rootHash; PrintStep 3] ++ evs' ++
            match err' with
            | Some e => [PrintDownloadFailed e]
            | None => [PrintDownloaded ("downloaded_" +:+ TestFileName)]
            end
      end
  end.

(** All characters of [s] satisfy [p]. *)
Fixpoint all_chars (p : ascii -> bool) (s : string) : bool :=
  match s with
  | EmptyString => true
  | String a t => p a && all_chars p t
  end.

(** A client binary that reports the root on its third line. *)
Definition sample_root : string :=
  "0x0123456789abcdef0123456789ABCDEF0123456789abcdef0123456789ABCDEF".

Definition sample_proc (command : string) (args : list string) : ProcRun :=
  match args with
  | "upload" :: _ =>
      Runs ["Begin to upload file"; "Transaction submitted";
            "upload finished, root: " +:+ sample_root; "done"] None
  | _ => Runs ["Succeeded to download file"] None
  end.

End Cli.

(** * The rest of [src/main.go] *)

(** The SDK calls that download a root, in call order: the root, the output
    file and the proof flag. *)
Definition call_of (e : Event) : option (string * string * bool) :=
  match e with
  | SdkDownload root out wp _ => Some (root, out, wp)
  | _ => None
  end.

Definition download_calls (tr : list Event) : list (string * string * bool) :=
  omap call_of tr.

(** An SDK whose roots are shorter than the ten characters [main] prints. *)
Definition short_roots : Sdk :=
  {| Net := unit;
     Iter := list byte;
     NewDataInMemory d := Ok d;
     idx_Upload n it _ := (n, Ok "0xtx");
     MerkleTree it := Ok "0x01";
     idx_Download n _ _ _ := (n, Err (SdkError "no node serves the root")) |}.

Definition TestFileName : string := "test_4gb_file.bin".

(** ** [debugShardedNodes], lines 172-199

    [newClient] is the error of [indexer.NewClient], [nodes] the result of
    [GetShardedNodes]; the nodes in the lists are taken to be non-nil. *)
Record ShardConfig : Type := mkShardConfig {
  NumShard : N;
  ShardId : N
}.

Record ShardedNode : Type := mkShardedNode {
  URL : string;
  Config : ShardConfig;
  Latency : Z
}.

Record ShardedNodes : Type := mkShardedNodes {
  Trusted : list ShardedNode;
  Discovered : list ShardedNode
}.

Inductive DebugEvent : Type :=
  | DebugHeader                                   (* line 173 *)
  | DebugClientFailed (e : error)                 (* line 177 *)
  | DebugNodesFailed (e : error)                  (* line 183 *)
  | DebugCounts (trusted discovered : nat)        (* line 187 *)
  | DebugTitle (title : string)                   (* line 190 *)
  | DebugNode (i : nat) (node : ShardedNode).     (* lines 192-193 *)

Definition printNodes (title : string) (nodes : list ShardedNode)
  : list DebugEvent :=
  DebugTitle title :: imap DebugNode nodes.

Definition debugShardedNodes (newClient : option error)
    (nodes : result ShardedNodes) : list DebugEvent :=
  DebugHeader ::
  match newClient with
  | Some e => [DebugClientFailed e]
  | None =>
      match nodes with
      | Err e => [DebugNodesFailed e]
      | Ok nodes =>
          DebugCounts (length (Trusted nodes)) (length (Discovered nodes)) ::
          printNodes "Trusted" (Trusted nodes) ++
          printNodes "Discovered" (Discovered nodes)
      end
  end.

(** ** [main], lines 37-113, and [setupClient], lines 118-135

    What the process meets outside the SDK calls of the transfer: the value
    of [ZGS_PRIVATE_KEY], how [blockchain.MustNewWeb3] ends the process if it
    does, the errors of [indexer.NewClient], of [createDummyFile] and of
    [os.Open], and what the indexer tells [debugShardedNodes]. *)
Record Host : Type := mkHost {
  env_key : string;
  must_web3 : option Exit;
  new_client : option error;
  debug_new_client : option error;
  debug_nodes : result ShardedNodes;
  create_dummy : option error;
  open_file : option error
}.

Inductive MainEvent : Type :=
  | FatalNoKey                                    (* line 41 *)
  | FatalSetup (e : error)                        (* line 47 *)
  | Debug (d : DebugEvent)                        (* line 51 *)
  | PrintInitOk                                   (* line 53 *)
  | PrintStep1                                    (* line 56 *)
  | FatalCreate (e : error)                       (* line 58 *)
  | PrintCreated                                  (* line 61 *)
  | FatalOpen (e : error)                         (* line 66 *)
  | Body (e : Event)                              (* lines 70-112 *)
  | DeferredClose                                 (* line 68 *)
  | DeferredRemove (name : string).               (* line 60 *)

Definition setupClient (h : Host) : Exit + option error :=
  match must_web3 h with
  | Some ex => inl ex
  | None =>
      inr match new_client h with
          | Some e => Some (Errorf "indexer 客户端初始化失败" e)
          | None => None
          end
  end.

(** The end of [main] once the transfer [r] is over.  [log.Fatal] ends the
    process without running the deferred calls; a return and a panic run
    them, last deferred first. *)
Definition finish (pre : list MainEvent) {c : Sdk} (r : State c * Exit)
  : list MainEvent * Exit :=
  let tr := pre ++ (Body <$> st_trace r.1) in
  match r.2 with
  | ExitFatal => (tr, ExitFatal)
  | ex => (tr ++ [DeferredClose; DeferredRemove TestFileName], ex)
  end.

Definition main (h : Host) (c : Sdk) (n : Net c) : list MainEvent * Exit :=
  if bool_decide (env_key h = "") then ([FatalNoKey], ExitFatal)
  else
    match setupClient h with
    | inl ex => ([], ex)
    | inr (Some e) => ([FatalSetup e], ExitFatal)
    | inr None =>
        let pre :=
          (Debug <$> debugShardedNodes (debug_new_client h) (debug_nodes h))
          ++ [PrintInitOk; PrintStep1] in
        match create_dummy h with
        | Some e => (pre ++ [FatalCreate e], ExitFatal)
        | None =>
            let pre := pre ++ [PrintCreated] in
            match open_file h with
            | Some e => (pre ++ [FatalOpen e], ExitFatal)
            | None =>
                finish pre (main_from c n (createDummyFile LargeFileSize))
            end
        end
    end.

(** A host on which everything outside the transfer goes well. *)
Definition good_host : Host :=
  {| env_key := "0xkey";
     must_web3 := None;
     new_client := None;
     debug_new_client := None;
     debug_nodes := Ok {| Trusted := []; Discovered := [] |};
     create_dummy := None;
     open_file := None |}.

(** The events the upload loop can log. *)
Definition upload_event (e : Event) : Prop :=
  match e with
  | PrintStep _ | PrintUploading _ | SdkUpload _ _ _ | PrintUploaded _ _
  | FatalRead _ | FatalUpload _ _ => True
  | _ => False
  end.

(** Any character but the first letter of the pattern. *)
Definition not_r (a : ascii) : bool := negb (Ascii.eqb a "r").

(** * Facts about the SDK driver *)

Lemma fragments_S F src m : fragments F src (S m) = fragments F src m ++ [fragment F src m].
Proof. unfold fragments. by rewrite seq_S, fmap_app. Qed.

Lemma length_fragments F src m : length (fragments F src m) = m.
Proof. unfold fragments. by rewrite length_fmap, length_seq. Qed.

Lemma concat_fragments F src m : concat (fragments F src m) = take (m * F) src.
Proof.
  induction m as [|m IH]; [done|].
  rewrite fragments_S, concat_app, IH. simpl. rewrite app_nil_r.
  unfold fragment. rewrite take_take_drop. f_equal. lia.
Qed.

Lemma fragments_lookup F src m j : j < m -> fragments F src m !! j = Some (fragment F src j).
Proof.
  intros Hj. unfold fragments. rewrite list_lookup_fmap, lookup_seq_lt by done. done.
Qed.

Lemma length_fragment F src j : length (fragment F src j) = F `min` (length src - j * F).
Proof. unfold fragment. by rewrite length_take, length_drop. Qed.

Lemma ReadFull_spec file buf :
  let F := length buf in
  exists buf' n err,
    ReadFull file buf = (drop F file, buf', n, err) /\
    length buf' = F /\ take n buf' = take F file /\ n = length (take F file) /\
    (forall e, err <> Some (ErrIO e)).
Proof.
  intros F. unfold ReadFull. fold F.
  set (n := F `min` length file).
  eexists _, n, _. split_and!.
  - f_equal. f_equal. f_equal.
    destruct (decide (F <= length file)).
    + by replace n with F by lia.
    + rewrite !drop_ge by lia. done.
  - rewrite length_app, length_take, length_drop. lia.
  - rewrite take_app_le by (rewrite length_take; lia).
    rewrite take_take. replace (n `min` n) with n by lia.
    destruct (decide (F <= length file)).
    + by replace n with F by lia.
    + rewrite !take_ge by lia. done.
  - rewrite length_take. done.
  - intros e. repeat case_match; congruence.
Qed.

Section Loop.
Context (c : Sdk).

Lemma Upload_cases n d n' evs r :
  Upload c n d = (n', evs, r) ->
  (exists e, NewDataInMemory c d = Err e /\ n' = n /\ evs = [] /\
             r = Err (Errorf "创建内存数据失败" e)) \/
  (exists it res, NewDataInMemory c d = Ok it /\
     idx_Upload c n it (upload_option) = (n', res) /\
     evs = [SdkUpload d upload_option res] /\
     match res with
     | Err e => r = Err (Errorf "上传失败" e)
     | Ok tx =>
         match MerkleTree c it with
         | Err e => r = Err (Errorf "计算 Merkle Root 失败" e)
         | Ok root => r = Ok (tx, root)
         end
     end).
Proof.
  unfold Upload. intros H.
  destruct (NewDataInMemory c d) as [it|e] eqn:Hnew.
  - right. destruct (idx_Upload c n it upload_option) as [n1 res] eqn:Hup.
    exists it, res. destruct res as [tx|e].
    + destruct (MerkleTree c it) eqn:Hm; simplify_eq; done.
    + simplify_eq. done.
  - left. exists e. simplify_eq. done.
Qed.

Lemma upload_body_cases i s s' fl :
  upload_body c i s = (s', fl) ->
  let F := length (st_buffer s) in
  let d := take F (st_file s) in
  length (st_buffer s') = F /\ st_file s' = drop F (st_file s) /\
  match fl with
  | Break =>
      d = [] /\ st_net s' = st_net s /\ st_roots s' = st_roots s /\
      st_trace s' = st_trace s ++ [PrintUploading (i + 1)]
  | Continue =>
      d <> [] /\ exists evs tx root,
        Upload c (st_net s) d = (st_net s', evs, Ok (tx, root)) /\
        st_roots s' = st_roots s ++ [root] /\
        st_trace s' =
          st_trace s ++ [PrintUploading (i + 1)] ++ evs ++
          [PrintUploaded root tx]
  | Stop e =>
      e = ExitFatal /\ d <> [] /\ exists evs err,
        Upload c (st_net s) d = (st_net s', evs, Err err) /\
        st_roots s' = st_roots s /\
        st_trace s' =
          st_trace s ++ [PrintUploading (i + 1)] ++ evs ++
          [FatalUpload (i + 1) err]
  end.
Proof.
  intros H F d. unfold upload_body in H. cbn [log st_file st_buffer st_net st_roots st_trace] in H.
  destruct (ReadFull_spec (st_file s) (st_buffer s)) as (buf' & n & err & HR & Hlen & Htake & Hn & Herr).
  fold F in HR, Hlen, Htake, Hn. fold d in Htake, Hn.
  rewrite HR in H. cbn [st_file st_buffer st_net st_roots st_trace] in H.
  assert (Hgo : (if Nat.eqb n 0 then (({| st_net := st_net s; st_file := drop F (st_file s);
              st_buffer := buf'; st_roots := st_roots s;
              st_trace := st_trace s ++ [PrintUploading (i + 1)] |} : State c), Break)
      else
        let '(n', evs, r) := Upload c (st_net s) (take n buf') in
        match r with
        | Err e => (log c {| st_net := n'; st_file := drop F (st_file s);
                    st_buffer := buf'; st_roots := st_roots s;
                    st_trace := (st_trace s ++ [PrintUploading (i + 1)]) ++ evs |} [FatalUpload (i + 1) e], Stop ExitFatal)
        | Ok (txHash, root) =>
            ({| st_net := n'; st_file := drop F (st_file s);
                st_buffer := buf';
                st_roots := st_roots s ++ [root];
                st_trace := ((st_trace s ++ [PrintUploading (i + 1)]) ++ evs) ++ [PrintUploaded root txHash] |},
             Continue)
        end) = (s', fl)).
  { destruct err as [[| |e]|]; [done|done| |done]. by destruct (Herr e). }
  clear H. rewrite Htake in Hgo.
  destruct (Nat.eqb_spec n 0) as [Hz|Hnz].
  - simplify_eq. cbn. split_and!; try done. by apply nil_length_inv.
  - assert (d <> []) by (intros Hd; rewrite Hd in Hn; simpl in Hn; lia).
    destruct (Upload c (st_net s) d) as [[n' evs] r] eqn:HU.
    destruct r as [[tx root]|e]; simplify_eq; cbn.
    + split_and!; try done. exists evs, tx, root. split_and!; try done.
      by rewrite <- !app_assoc.
    + split_and!; try done. exists evs, e. split_and!; try done.
      by rewrite <- !app_assoc.
Qed.

Lemma upload_loop_rule (P : nat -> State c -> Prop) k : forall i s s' ex,
  (forall j t t', P j t -> upload_body c j t = (t', Continue) -> P (S j) t') ->
  P i s -> upload_loop c k i s = (s', ex) ->
  (ex = None /\ P (i + k) s') \/
  (exists j t fl, i <= j < i + k /\ P j t /\ upload_body c j t = (s', fl) /\
     match fl with
     | Continue => False
     | Break => ex = None
     | Stop e => ex = Some e
     end).
Proof.
  induction k as [|k IH]; intros i s s' ex Hstep HP Hrun; simpl in Hrun.
  - left. simplify_eq. by rewrite Nat.add_0_r.
  - destruct (upload_body c i s) as [t fl] eqn:Hb. destruct fl as [| |e].
    + destruct (IH (S i) t s' ex Hstep (Hstep _ _ _ HP Hb) Hrun)
        as [[-> HP']|(j & u & fl & Hj & HPj & Hbj & Hfl)].
      * left. split; [done|]. by replace (i + S k) with (S i + k) by lia.
      * right. exists j, u, fl. split_and!; try done; lia.
    + right. exists i, s, Break. simplify_eq. split_and!; try done; lia.
    + right. exists i, s, (Stop e). simplify_eq. split_and!; try done; lia.
Qed.

Lemma Upload_Ok_inv n d n' evs tx root :
  Upload c n d = (n', evs, Ok (tx, root)) ->
  root_rel c d root /\ evs = [SdkUpload d upload_option (Ok tx)].
Proof.
  intros H. apply Upload_cases in H as [(e & _ & _ & _ & ?)|(it & res & Hn & Hu & -> & Hr)];
    [done|].
  destruct res as [tx'|e]; [|done].
  destruct (MerkleTree c it) as [r|e] eqn:Hm; [|done]. simplify_eq.
  split; [|done]. by exists it.
Qed.

Lemma Inv_step src F j t t' :
  Inv c src F j t -> upload_body c j t = (t', Continue) -> Inv c src F (S j) t'.
Proof.
  intros (Hb & Hf & Hu & Hr & Hne) Hbody.
  apply upload_body_cases in Hbody as (Hb' & Hf' & Hd & evs & tx & root & HU & Hroots & Htr).
  rewrite Hb in *. rewrite Hf in *. fold (fragment F src j) in *.
  apply Upload_Ok_inv in HU as [Hrel ->].
  split_and!.
  - done.
  - rewrite Hf', drop_drop. f_equal. lia.
  - rewrite Htr. unfold uploads in *. rewrite !omap_app, Hu. simpl.
    by rewrite fragments_S.
  - rewrite Hroots, fragments_S. apply Forall2_app; [done|]. by constructor.
  - rewrite fragments_S. apply Forall_app. split; [done|]. by constructor.
Qed.

Lemma Inv_init n src F : Inv c src F 0 (init c n src F).
Proof.
  unfold Inv, init, make. simpl. rewrite length_replicate.
  split_and!; try done; constructor.
Qed.

Lemma take_nil_drop {A} (F : nat) (l : list A) : take F l = [] -> drop F l = l.
Proof. destruct F, l; simpl; congruence. Qed.

Lemma upload_phase_spec n src F s ex :
  upload_phase c n src F = (s, ex) ->
  exists m, m <= 10 /\
    uploads (st_trace s) = fragments F src m /\
    Forall (fun d => d <> []) (fragments F src m) /\
    (exists p, p <= 10 /\ st_file s = drop (p * F) src) /\
    match ex with
    | None =>
        Forall2 (root_rel c) (fragments F src m) (st_roots s) /\
        st_file s = drop (m * F) src /\
        (m = 10 \/ fragment F src m = [])
    | Some e =>
        e = ExitFatal /\
        (m = length (st_roots s) \/ m = S (length (st_roots s))) /\
        exists pre err,
          st_trace s = pre ++ [FatalUpload (S (length (st_roots s))) err]
    end.
Proof.
  intros Hrun. unfold upload_phase in Hrun.
  apply (upload_loop_rule (Inv c src F)) in Hrun
    as [[-> HI]|(j & t & fl & Hj & HI & Hb & Hfl)];
    [| |apply Inv_step|apply Inv_init].
  - destruct HI as (Hb & Hf & Hu & Hr & Hne). exists 10. split_and!; eauto.
  - destruct HI as (Hbuf & Hf & Hu & Hr & Hne).
    apply upload_body_cases in Hb as (Hb' & Hf' & Hcase).
    rewrite Hbuf, Hf in *. fold (fragment F src j) in *.
    assert (Hp : exists p, p <= 10 /\ st_file s = drop (p * F) src).
    { exists (S j). split; [lia|]. rewrite Hf', drop_drop. f_equal. lia. }
    destruct fl as [| |e]; [done| |].
    + subst ex. destruct Hcase as (Hd & Hn & Hroots & Htr).
      exists j. split_and!; try done; try lia.
      * rewrite Htr. unfold uploads in *. by rewrite omap_app, Hu, app_nil_r.
      * by rewrite Hroots.
      * rewrite Hf'. by apply take_nil_drop.
      * by right.
    + subst ex. destruct Hcase as (-> & Hd & evs & err & HU & Hroots & Htr).
      assert (Hlen : length (st_roots s) = j).
      { rewrite Hroots. apply Forall2_length in Hr. by rewrite <- Hr, length_fragments. }
      apply Upload_cases in HU as [(e & _ & _ & -> & _)|(it & res & _ & _ & -> & _)].
      * exists j. split_and!; try done; try lia.
        -- rewrite Htr. unfold uploads in *. by rewrite !omap_app, Hu, !app_nil_r.
        -- exists (st_trace t ++ [PrintUploading (j + 1)]), err.
           rewrite Htr, Hlen. simpl. rewrite <- app_assoc. simpl.
           by replace (j + 1) with (S j) by lia.
      * exists (S j). split_and!; try done; try lia.
        -- rewrite Htr. unfold uploads in *. rewrite !omap_app, Hu. simpl.
           by rewrite fragments_S.
        -- rewrite fragments_S. apply Forall_app. split; [done|]. by constructor.
        -- exists (st_trace t ++ [PrintUploading (j + 1); SdkUpload (fragment F src j) upload_option res]), err.
           rewrite Htr, Hlen. simpl. rewrite <- app_assoc. simpl.
           by replace (j + 1) with (S j) by lia.
Qed.
End Loop.

(** ** The download phase *)




Lemma omap_None {A B} (f : A -> option B) (l : list A) :
  Forall (fun x => f x = None) l -> omap f l = [].
Proof. induction 1 as [|x l Hx _ IH]; [done|]. simpl. by rewrite Hx. Qed.


Section Download.
Context (c : Sdk).

Lemma download_loop_spec : forall roots i n,
  Forall (fun r => 10 <= String.length r) roots ->
  exists n' evs,
    download_loop c i roots n = (n', evs, None) /\
    requested evs = roots /\ uploads evs = [] /\
    (forall tail, reported tail -> reported (evs ++ tail)).
Proof.
  induction roots as [|root rest IH]; intros i n Hlen.
  - exists n, []. by simpl.
  - apply Forall_cons in Hlen as [Hr Hrest].
    cbn [download_loop]. unfold download_body, Download.
    destruct (Nat.ltb_spec (String.length root) 10) as [?|_]; [lia|].
    destruct (idx_Download c n root (outFile_of i) false) as [n1 res] eqn:Hd.
    destruct (IH (S i) n1 Hrest) as (n2 & evs & -> & Hreq & Hup & Hrep).
    eexists _, _. split; [done|]. split_and!.
    + simpl. unfold requested in *. rewrite omap_app, Hreq.
      by destruct res.
    + simpl. unfold uploads in *. rewrite omap_app, Hup. by destruct res.
    + intros tail Ht. specialize (Hrep tail Ht).
      destruct res; simpl; rewrite <- ?app_assoc; simpl; eauto.
Qed.

Lemma upload_phase_quiet n src F s ex :
  upload_phase c n src F = (s, ex) ->
  Forall (fun e => request_of e = None) (st_trace s).
Proof.
  intros Hrun. unfold upload_phase in Hrun.
  assert (HU : forall n0 d n' evs r, Upload c n0 d = (n', evs, r) ->
                Forall (fun e => request_of e = None) evs).
  { intros n0 d n' evs r H.
    apply Upload_cases in H as [(e & _ & _ & -> & _)|(it & res & _ & _ & -> & _)];
      repeat constructor. }
  apply (upload_loop_rule c
           (fun _ t => Forall (fun e => request_of e = None) (st_trace t)))
    in Hrun as [[_ H]|(j & t & fl & _ & Ht & Hb & Hfl)]; [done| | |].
  - apply upload_body_cases in Hb as (_ & _ & Hcase).
    destruct fl as [| |e]; [done| |].
    + destruct Hcase as (_ & _ & _ & ->). apply Forall_app. by repeat constructor.
    + destruct Hcase as (_ & _ & evs & err & HUp & _ & ->).
      rewrite !Forall_app. split_and!; eauto; by repeat constructor.
  - intros j t t' Ht Hb. apply upload_body_cases in Hb as (_ & _ & _ & evs & tx & root & HUp & _ & ->).
    rewrite !Forall_app. split_and!; eauto; by repeat constructor.
  - by repeat constructor.
Qed.

Lemma transfer_spec n src F s :
  upload_phase c n src F = (s, None) ->
  Forall (fun r => 10 <= String.length r) (st_roots s) ->
  exists n' evs,
    download_loop c 0 (st_roots s) (st_net s) = (n', evs, None) /\
    transfer c n src F =
      ({| st_net := n'; st_file := st_file s; st_buffer := st_buffer s;
          st_roots := st_roots s;
          st_trace := st_trace s ++ [PrintStep 3] ++ evs ++ [PrintBanner] |},
       ExitOk).
Proof.
  intros Hup Hlen.
  destruct (download_loop_spec (st_roots s) 0 (st_net s) Hlen)
    as (n' & evs & Hd & _).
  exists n', evs. split; [done|].
  unfold transfer. rewrite Hup. cbn [log st_roots st_net st_file st_buffer st_trace].
  rewrite Hd. cbn [log st_roots st_net st_file st_buffer st_trace].
  unfold log. cbn [st_roots st_net st_file st_buffer st_trace].
  by rewrite <- !app_assoc.
Qed.
End Download.

(** ** The ideal network *)


Lemma take_whole F (src : list byte) m :
  0 < F -> length src <= 10 * F -> m <= 10 ->
  m = 10 \/ fragment F src m = [] ->
  take (m * F) src = src.
Proof.
  intros HF Hlen Hm [->|Hnil]; [by apply take_ge|].
  apply take_ge. apply (f_equal length) in Hnil.
  rewrite length_fragment in Hnil. simpl in Hnil. lia.
Qed.

Section Ideal.
Context (mroot : list byte -> string).

Lemma ideal_Upload n d :
  d <> [] ->
  Upload (ideal mroot) n d =
    (<[mroot d := d]> n, [SdkUpload d upload_option (Ok "0xtx")],
     Ok ("0xtx", mroot d)).
Proof. by destruct d. Qed.

Lemma stored_snoc n ds d :
  stored mroot n (ds ++ [d]) = <[mroot d := d]> (stored mroot n ds).
Proof. unfold stored. by rewrite foldl_app. Qed.


Lemma ideal_upload_phase n0 src F :
  exists s m,
    upload_phase (ideal mroot) n0 src F = (s, None) /\ m <= 10 /\
    uploads (st_trace s) = fragments F src m /\
    st_roots s = mroot <$> fragments F src m /\
    st_net s = stored mroot n0 (fragments F src m) /\
    (m = 10 \/ fragment F src m = []).
Proof.
  destruct (upload_phase (ideal mroot) n0 src F) as [s ex] eqn:Hrun.
  pose proof Hrun as Hspec. apply upload_phase_spec in Hspec as _.
  unfold upload_phase in Hrun.
  apply (upload_loop_rule (ideal mroot)
           (fun i t => Inv (ideal mroot) src F i t /\
                       st_roots t = mroot <$> fragments F src i /\
                       st_net t = stored mroot n0 (fragments F src i)))
    in Hrun as [[-> (HI & Hr & Hn)]|(j & t & fl & Hj & (HI & Hr & Hn) & Hb & Hfl)].
  - destruct HI as (_ & _ & Hu & _). exists s, 10. split_and!; eauto.
  - destruct HI as (Hbuf & Hf & Hu & _ & _).
    apply upload_body_cases in Hb as (_ & _ & Hcase).
    rewrite Hbuf, Hf in Hcase. fold (fragment F src j) in Hcase.
    destruct fl as [| |e]; [done| |].
    + subst ex. destruct Hcase as (Hd & Hnet & Hroots & Htr).
      exists s, j. split_and!; try done; try lia.
      * rewrite Htr. unfold uploads in *. by rewrite omap_app, Hu, app_nil_r.
      * by rewrite Hroots.
      * by rewrite Hnet.
      * by right.
    + destruct Hcase as (_ & Hd & evs & err & HU & _).
      by rewrite ideal_Upload in HU.
  - intros j t t' (HI & Hr & Hn) Hb. split; [by eapply Inv_step|].
    destruct HI as (Hbuf & Hf & _).
    apply upload_body_cases in Hb as (_ & _ & Hd & evs & tx & root & HU & Hroots & _).
    rewrite Hbuf, Hf in *. fold (fragment F src j) in *.
    rewrite ideal_Upload in HU by done. simplify_eq.
    rewrite fragments_S, fmap_app, stored_snoc, Hroots, Hr, <- Hn. done.
  - split; [apply Inv_init|]. done.
Qed.


End Ideal.




(** * The claims *)

(** C1 (amended): when the source has at most ten windows of [F > 0] bytes and
    the upload phase completes, the payloads handed to the SDK are the
    windows of the source in index order, every one non-empty and all but
    the last of exactly [F] bytes, each paired with its collected root, and
    their concatenation is the source. *)
Theorem upload_fragments_reassemble c (n : Net c) src F s :
  0 < F -> length src <= 10 * F ->
  upload_phase c n src F = (s, None) ->
  concat (uploads (st_trace s)) = src /\
  Forall2 (root_rel c) (uploads (st_trace s)) (st_roots s) /\
  forall j d, uploads (st_trace s) !! j = Some d ->
    d = fragment F src j /\ d <> [] /\ length d <= F /\
    (S j < length (uploads (st_trace s)) -> length d = F).
Proof.
  intros HF Hlen Hrun.
  apply upload_phase_spec in Hrun as (m & Hm & Hu & Hne & _ & Hr & _ & Hend).
  rewrite Hu, concat_fragments, length_fragments. split_and!.
  - by apply take_whole.
  - done.
  - intros j d Hj.
    assert (Hjm : j < m).
    { apply lookup_lt_Some in Hj. by rewrite length_fragments in Hj. }
    rewrite fragments_lookup in Hj by done. simplify_eq.
    rewrite Forall_forall in Hne. split_and!.
    + done.
    + apply Hne, list_elem_of_lookup. exists j. by apply fragments_lookup.
    + rewrite length_fragment. lia.
    + intros HS.
      assert (Hn : fragment F src (S j) <> []).
      { apply Hne, list_elem_of_lookup. exists (S j). by apply fragments_lookup. }
      assert (0 < length (fragment F src (S j))).
      { destruct (fragment F src (S j)); [done|simpl; lia]. }
      rewrite length_fragment in *. simpl in *. lia.
Qed.

Lemma upload_fragments_reassemble_witness :
  0 < 3 /\ length sample <= 10 * 3 /\
  concat (uploads (st_trace (upload_phase (ideal tag_root) ∅ sample 3).1))
  = sample.
Proof.
  split; [lia|]. split; [simpl; lia|].
  apply (upload_fragments_reassemble (ideal tag_root) ∅ sample 3);
    [lia | simpl; lia | vm_compute; reflexivity].
Defined.

Lemma upload_covers_ten_windows c (n : Net c) src F :
  let s := (upload_phase c n src F).1 in
  length (st_roots s) <= 10 /\
  length (uploads (st_trace s)) <= 10 /\
  concat (uploads (st_trace s)) `prefix_of` take (10 * F) src /\
  drop (10 * F) src `suffix_of` st_file s.
Proof.
  destruct (upload_phase c n src F) as [s ex] eqn:Hrun. cbn [fst].
  apply upload_phase_spec in Hrun as (m & Hm & Hu & _ & (p & Hp & Hf) & Hex).
  rewrite Hu, concat_fragments, length_fragments, Hf. split_and!.
  - destruct ex as [e|].
    + destruct Hex as (_ & Hl & _). lia.
    + destruct Hex as (Hr & _). apply Forall2_length in Hr.
      rewrite length_fragments in Hr. lia.
  - done.
  - replace (take (m * F) src) with (take (m * F) (take (10 * F) src)).
    + apply prefix_take.
    + rewrite take_take. f_equal. nia.
  - replace (drop (10 * F) src) with (drop ((10 - p) * F) (drop (p * F) src)).
    + apply suffix_drop.
    + rewrite drop_drop. f_equal. nia.
Qed.

Lemma length_createDummyFile size :
  length (createDummyFile size) = N.to_nat size.
Proof. apply length_replicate. Qed.

Lemma test_file_exceeds_ten_chunks :
  10 * chunk_len < length (createDummyFile LargeFileSize).
Proof.
  rewrite length_createDummyFile. unfold chunk_len, ChunkSize, LargeFileSize.
  lia.
Qed.

Lemma short_prefix_differs (l src : list byte) F :
  l `prefix_of` take (10 * F) src -> 10 * F < length src -> l <> src.
Proof.
  intros Hp Hlt ->. apply prefix_length in Hp. rewrite length_take in Hp. lia.
Qed.

(** C1 (counterexample): on the 4 GiB file that [main] creates, read through
    its 400 MiB buffer, the upload phase completes and the uploaded payloads
    do not add up to the file. *)
Lemma upload_fragments_miss_tail_of_test_file :
  (upload_phase (ideal tag_root) ∅ (createDummyFile LargeFileSize)
     chunk_len).2 = None /\
  concat (uploads (st_trace
    (upload_phase (ideal tag_root) ∅ (createDummyFile LargeFileSize)
       chunk_len).1)) <> createDummyFile LargeFileSize.
Proof.
  split.
  - destruct (ideal_upload_phase tag_root ∅ (createDummyFile LargeFileSize)
                chunk_len) as (s & m & -> & _). done.
  - eapply short_prefix_differs; [|apply test_file_exceeds_ten_chunks].
    apply (upload_covers_ten_windows (ideal tag_root) ∅).
Qed.








(** C4 (amended): [Upload] takes the payload only; whatever the SDK, the
    network state and the payload, a call it makes to the SDK's upload
    carries that payload with the replica count 1 and the finality
    requirement [FileFinalized]. *)
Theorem upload_policy_is_fixed c (n : Net c) data :
  Forall (fun e =>
            match e with
            | SdkUpload d opt _ =>
                d = data /\ ExpectedReplica opt = 1%N /\
                FinalityRequired opt = FileFinalized
            | _ => True
            end) (Upload c n data).1.2.
Proof.
  destruct (Upload c n data) as [[n' evs] r] eqn:HU. cbn [fst snd].
  apply Upload_cases in HU as [(e & _ & _ & -> & _)|(it & res & _ & _ & -> & _)];
    repeat constructor.
Qed.

(** C4 (counterexample): no SDK, network state and payload make [Upload]
    pass a replica count other than 1 or a finality requirement other than
    [FileFinalized]: the policy is not an input of the call. *)
Lemma no_caller_chooses_upload_policy :
  ~ exists (c : Sdk) (n : Net c) data d opt res,
      SdkUpload d opt res ∈ (Upload c n data).1.2 /\
      (ExpectedReplica opt <> 1%N \/ FinalityRequired opt <> FileFinalized).
Proof.
  intros (c & n & data & d & opt & res & Hin & Hne).
  destruct (Upload c n data) as [[n' evs] r] eqn:HU. cbn [fst snd] in Hin.
  apply Upload_cases in HU as [(e & _ & _ & -> & _)|(it & res' & _ & _ & -> & _)].
  - by apply elem_of_nil in Hin.
  - apply list_elem_of_singleton in Hin. simplify_eq. cbn in Hne. tauto.
Qed.

(** C6: on an empty source the run uploads nothing, collects no root,
    leaves the network as it was, prints the banner and returns normally. *)
Theorem empty_source_completes c (n : Net c) F :
  transfer c n [] F =
    ({| st_net := n; st_file := []; st_buffer := make F; st_roots := [];
        st_trace := [PrintStep 2; PrintUploading 1; PrintStep 3;
                     PrintBanner] |}, ExitOk).
Proof.
  unfold transfer, upload_phase, init. cbn [upload_loop].
  unfold upload_body, ReadFull. cbn [log st_file st_buffer st_net st_roots st_trace length].
  rewrite Nat.min_0_r. destruct (length (make F)); reflexivity.
Qed.

(** C7: the payloads handed to the SDK are the windows of the source in
    index order, without gap or repetition.  When the upload phase
    completes there is one collected root per payload and the [i]-th root
    is the one computed for the [i]-th window; when it stops on a failed
    fragment it is fatal, the last event is the fatal message of the
    fragment after the collected roots, and no later window was handed to
    the SDK. *)
Theorem roots_follow_fragment_order c (n : Net c) src F s ex :
  upload_phase c n src F = (s, ex) ->
  (forall i d, uploads (st_trace s) !! i = Some d -> d = fragment F src i) /\
  match ex with
  | None =>
      length (uploads (st_trace s)) = length (st_roots s) /\
      forall i r, st_roots s !! i = Some r ->
        uploads (st_trace s) !! i = Some (fragment F src i) /\
        root_rel c (fragment F src i) r
  | Some e =>
      e = ExitFatal /\
      length (uploads (st_trace s)) <= S (length (st_roots s)) /\
      exists pre err,
        st_trace s = pre ++ [FatalUpload (S (length (st_roots s))) err]
  end.
Proof.
  intros Hrun.
  apply upload_phase_spec in Hrun as (m & Hm & Hu & _ & _ & Hex).
  rewrite Hu, length_fragments. split.
  - intros i d Hi.
    assert (i < m).
    { apply lookup_lt_Some in Hi. by rewrite length_fragments in Hi. }
    rewrite fragments_lookup in Hi by done. by simplify_eq.
  - destruct ex as [e|].
    + destruct Hex as (-> & Hl & Hpre). split_and!; [done|lia|done].
    + destruct Hex as (Hr & _). pose proof (Forall2_length _ _ _ Hr) as Hlen.
      rewrite length_fragments in Hlen. split; [done|].
      intros i r Hi.
      assert (i < m) by (apply lookup_lt_Some in Hi; lia).
      split; [by apply fragments_lookup|].
      eapply (Forall2_lookup_lr _ _ _ i); [exact Hr| |exact Hi].
      by apply fragments_lookup.
Qed.

Lemma roots_follow_fragment_order_witness :
  upload_phase (ideal tag_root) ∅ sample 3
    = ((upload_phase (ideal tag_root) ∅ sample 3).1, None) /\
  length (uploads (st_trace (upload_phase (ideal tag_root) ∅ sample 3).1))
  = length (st_roots (upload_phase (ideal tag_root) ∅ sample 3).1).
Proof.
  assert (H1 : upload_phase (ideal tag_root) ∅ sample 3
               = ((upload_phase (ideal tag_root) ∅ sample 3).1, None))
    by (vm_compute; reflexivity).
  split; [exact H1|].
  exact (proj1 (proj2 (roots_follow_fragment_order
                         (ideal tag_root) ∅ sample 3 _ None H1))).
Defined.

(** C8: the root [Upload] returns is the one computed locally from the
    payload: two successful uploads of the same payload return the same
    root, also when the network, its state and the transaction hashes it
    reports differ. *)
Theorem root_depends_on_bytes_only c Net' up down
    (n : Net c) (n2 : Net') data n' n2' evs evs2 tx tx2 r r2 :
  Upload c n data = (n', evs, Ok (tx, r)) ->
  Upload (with_network c Net' up down) n2 data = (n2', evs2, Ok (tx2, r2)) ->
  r = r2 /\ root_rel c data r.
Proof.
  intros H1 H2.
  apply Upload_Ok_inv in H1 as [(it & Hn & Hm) _].
  apply Upload_Ok_inv in H2 as [(it2 & Hn2 & Hm2) _].
  cbn in Hn2, Hm2. split; [congruence|by exists it].
Qed.

Lemma root_depends_on_bytes_only_witness :
  Upload (ideal tag_root) ∅ sample
    = (<[tag_root sample := sample]> ∅,
       [SdkUpload sample upload_option (Ok "0xtx")],
       Ok ("0xtx", tag_root sample)) /\
  Upload (with_network (ideal tag_root) nat
            (fun k _ _ => (S k, Ok "0xother"))
            (fun k _ _ _ => (k, Err (SdkError "offline")))) 7 sample
    = (8, [SdkUpload sample upload_option (Ok "0xother")],
       Ok ("0xother", tag_root sample)) /\
  tag_root sample = tag_root sample.
Proof.
  assert (H1 : Upload (ideal tag_root) ∅ sample
    = (<[tag_root sample := sample]> ∅,
       [SdkUpload sample upload_option (Ok "0xtx")],
       Ok ("0xtx", tag_root sample))) by reflexivity.
  assert (H2 : Upload (with_network (ideal tag_root) nat
            (fun k _ _ => (S k, Ok "0xother"))
            (fun k _ _ _ => (k, Err (SdkError "offline")))) 7 sample
    = (8, [SdkUpload sample upload_option (Ok "0xother")],
       Ok ("0xother", tag_root sample))) by reflexivity.
  split_and!; [exact H1|exact H2|].
  exact (proj1 (root_depends_on_bytes_only (ideal tag_root) nat _ _ ∅ 7 sample
                  _ _ _ _ _ _ _ _ H1 H2)).
Defined.

(** C9: whatever the file, the upload loop of [main] collects at most ten
    roots and hands at most ten payloads to the SDK; the payloads lie within
    the first [10 * ChunkSize] bytes and the bytes beyond them are still
    unread when the loop ends. *)
Theorem at_most_ten_fragments c (n : Net c) src :
  let s := (upload_phase c n src chunk_len).1 in
  length (st_roots s) <= 10 /\
  length (uploads (st_trace s)) <= 10 /\
  concat (uploads (st_trace s)) `prefix_of` take (10 * chunk_len) src /\
  drop (10 * chunk_len) src `suffix_of` st_file s.
Proof. apply upload_covers_ten_windows. Qed.

(** C10: when the SDK's upload succeeds and the local Merkle tree
    computation then fails, [Upload] returns an error without the
    transaction hash, and the network is in the state the upload left. *)
Theorem upload_error_after_remote_write c (n n' : Net c) data it tx e :
  NewDataInMemory c data = Ok it ->
  idx_Upload c n it upload_option = (n', Ok tx) ->
  MerkleTree c it = Err e ->
  Upload c n data =
    (n', [SdkUpload data upload_option (Ok tx)],
     Err (Errorf "计算 Merkle Root 失败" e)).
Proof. intros Hn Hu Hm. unfold Upload. by rewrite Hn, Hu, Hm. Qed.

Lemma upload_error_after_remote_write_witness :
  NewDataInMemory merkle_fails sample = Ok sample /\
  idx_Upload merkle_fails 0 sample upload_option = (1, Ok "0xtx") /\
  MerkleTree merkle_fails sample = Err (SdkError "merkle tree") /\
  Upload merkle_fails 0 sample =
    (1, [SdkUpload sample upload_option (Ok "0xtx")],
     Err (Errorf "计算 Merkle Root 失败" (SdkError "merkle tree"))).
Proof.
  split_and!; [reflexivity|reflexivity|reflexivity|].
  apply (upload_error_after_remote_write merkle_fails 0 1 sample sample
           "0xtx" (SdkError "merkle tree")); reflexivity.
Defined.

(** ** The CLI driver *)

#[local] Arguments String.append !_ _ / : simpl nomatch.

Lemma append_assoc_s (a b d : string) : (a +:+ b) +:+ d = a +:+ (b +:+ d).
Proof. induction a as [|x a IH]; simpl; [done|by rewrite IH]. Qed.

Lemma length_append_s (a b : string) :
  String.length (a +:+ b) = String.length a + String.length b.
Proof. induction a as [|x a IH]; simpl; [done|by rewrite IH]. Qed.

Module CliFacts.
Import Cli.

Lemma strip_prefix_Some p : forall s r,
  strip_prefix p s = Some r -> s = p +:+ r.
Proof.
  induction p as [|a p IH]; intros s r H; simpl in *.
  - by simplify_eq.
  - destruct s as [|b s]; [done|]. case_bool_decide; [|done].
    subst. f_equal. by apply IH.
Qed.

Lemma strip_prefix_append p r : strip_prefix p (p +:+ r) = Some r.
Proof.
  induction p as [|a p IH]; simpl; [done|].
  by rewrite bool_decide_eq_true_2.
Qed.

Lemma span_seps_spec s : forall seps rest,
  span_seps s = (seps, rest) ->
  s = seps +:+ rest /\ all_chars is_sep seps = true.
Proof.
  induction s as [|a s IH]; intros seps rest H; simpl in H.
  - by simplify_eq.
  - destruct (is_sep a) eqn:Ha.
    + destruct (span_seps s) as [seps' rest'] eqn:Hs. simplify_eq.
      destruct (IH _ _ eq_refl) as [-> Hall]. simpl. by rewrite Ha, Hall.
    + by simplify_eq.
Qed.

Lemma span_seps_append seps a rest :
  all_chars is_sep seps = true -> is_sep a = false ->
  span_seps (seps +:+ String a rest) = (seps, String a rest).
Proof.
  intros Hall Ha. induction seps as [|b seps IH]; simpl in *.
  - by rewrite Ha.
  - apply andb_prop in Hall as [Hb Hall]. by rewrite Hb, IH.
Qed.

Lemma take_hex_spec k : forall s h,
  take_hex k s = Some h ->
  String.length h = k /\ all_chars is_hex h = true /\
  exists rest, s = h +:+ rest.
Proof.
  induction k as [|k IH]; intros s h H; simpl in H.
  - simplify_eq. split_and!; [done|done|by exists s].
  - destruct s as [|a s]; [done|]. destruct (is_hex a) eqn:Ha; [|done].
    destruct (take_hex k s) as [h'|] eqn:Hk; [|done]. simpl in H. simplify_eq.
    destruct (IH _ _ Hk) as (Hl & Hall & rest & ->).
    simpl. rewrite Ha, Hall, Hl. split_and!; [done|done|by exists rest].
Qed.

Lemma take_hex_append h rest :
  all_chars is_hex h = true ->
  take_hex (String.length h) (h +:+ rest) = Some h.
Proof.
  intros Hall. induction h as [|a h IH]; simpl in *; [done|].
  apply andb_prop in Hall as [Ha Hall]. by rewrite Ha, IH.
Qed.

Lemma match_here_spec s whole group :
  match_here s = Some (whole, group) ->
  exists seps hex rest,
    s = whole +:+ rest /\ whole = "root" +:+ seps +:+ group /\
    group = "0x" +:+ hex /\ seps <> "" /\ all_chars is_sep seps = true /\
    String.length hex = 64 /\ all_chars is_hex hex = true.
Proof.
  unfold match_here. intros H. cbv [mbind option_bind] in H.
  destruct (strip_prefix "root" s) as [r1|] eqn:H1; [|done].
  destruct (span_seps r1) as [seps r2] eqn:H2.
  case_bool_decide as Hne; [done|].
  destruct (strip_prefix "0x" r2) as [r3|] eqn:H3; [|done].
  destruct (take_hex 64 r3) as [h|] eqn:H4; [|done].
  simplify_eq.
  apply strip_prefix_Some in H1 as ->.
  apply span_seps_spec in H2 as [-> Hall].
  apply strip_prefix_Some in H3 as ->.
  apply take_hex_spec in H4 as (Hl & Hh & rest & ->).
  exists seps, h, rest. split_and!; try done.
  cbn [String.append]. do 4 f_equal.
  rewrite !append_assoc_s. cbn [String.append]. done.
Qed.

Lemma match_here_append seps hex rest :
  seps <> "" -> all_chars is_sep seps = true ->
  String.length hex = 64 -> all_chars is_hex hex = true ->
  match_here ("root" +:+ seps +:+ "0x" +:+ hex +:+ rest)
  = Some ("root" +:+ seps +:+ "0x" +:+ hex, "0x" +:+ hex).
Proof.
  intros Hne Hall Hl Hh. unfold match_here.
  cbv [mbind option_bind]. rewrite strip_prefix_append.
  cbn [String.append].
  rewrite (span_seps_append seps "0"%char) by done.
  rewrite bool_decide_eq_false_2 by done.
  cbn [strip_prefix]. rewrite !bool_decide_eq_true_2 by done.
  rewrite <- Hl, take_hex_append by done.
  done.
Qed.

Lemma FindStringSubmatch_spec s :
  FindStringSubmatch s = [] \/
  exists pre whole group rest,
    FindStringSubmatch s = [whole; group] /\
    s = pre +:+ whole +:+ rest /\
    match_here (whole +:+ rest) = Some (whole, group).
Proof.
  induction s as [|a s IH].
  - left. reflexivity.
  - cbn [FindStringSubmatch].
    destruct (match_here (String a s)) as [[whole group]|] eqn:Hm.
    + right. destruct (match_here_spec _ _ _ Hm) as (seps & hex & rest & Hs & _).
      exists "", whole, group, rest. split_and!; [done|done|by rewrite <- Hs].
    + destruct IH as [->|(pre & whole & group & rest & -> & -> & Hm')];
        [by left|right].
      exists (String a pre), whole, group, rest. done.
Qed.

Lemma parseRootHash_spec log :
  parseRootHash log = "" \/
  exists pre seps hex rest,
    log = pre +:+ "root" +:+ seps +:+ "0x" +:+ hex +:+ rest /\
    parseRootHash log = "0x" +:+ hex /\
    seps <> "" /\ all_chars is_sep seps = true /\
    String.length hex = 64 /\ all_chars is_hex hex = true.
Proof.
  unfold parseRootHash.
  destruct (FindStringSubmatch_spec log)
    as [->|(pre & whole & group & rest & -> & -> & Hm)]; [by left|].
  right. apply match_here_spec in Hm
    as (seps & hex & rest' & Hs & -> & -> & Hne & Hall & Hl & Hh).
  exists pre, seps, hex, rest. split_and!; try done.
  rewrite ?append_assoc_s. simpl. by rewrite ?append_assoc_s.
Qed.
End CliFacts.

Section CliMain.
Import Cli.
Context (proc : string -> list string -> ProcRun).

Lemma main_parses_output lines :
  proc ClientBinaryPath uploadArgs = Runs lines None ->
  parseRootHash (fullOutput lines) <> "" ->
  exists tail,
    main None proc =
      [PrintStep 1; PrintGenerated; PrintStep 2;
       RunCommand ClientBinaryPath uploadArgs] ++ (PrintLine <$> lines) ++
      [PrintUploaded (parseRootHash (fullOutput lines)); PrintStep 3;
       RunCommand ClientBinaryPath
         (downloadArgs (parseRootHash (fullOutput lines)))] ++ tail.
Proof.
  unfold main, runCommand. generalize uploadArgs as ua. intros ua Hp Hne.
  rewrite Hp. rewrite bool_decide_eq_false_2 by exact Hne.
  revert Hne. generalize (parseRootHash (fullOutput lines)) as r.
  intros r _.
  destruct (proc ClientBinaryPath (downloadArgs r)) as [e|lines' wait];
    eexists; cbn [app]; reflexivity.
Qed.
End CliMain.

(** C5 (amended): in the SDK driver the root is the typed second result of
    [Upload], computed by the SDK from the payload; in the CLI driver the
    root passed to the download command is what [parseRootHash] extracts
    from the text the client printed: the capture of a match of
    [root[:\s]+(0x[a-fA-F0-9]{64})]. *)
Theorem root_typed_in_sdk_parsed_in_cli
    c (n n' : Net c) data evs tx root proc lines :
  Upload c n data = (n', evs, Ok (tx, root)) ->
  proc Cli.ClientBinaryPath Cli.uploadArgs = Cli.Runs lines None ->
  Cli.parseRootHash (Cli.fullOutput lines) <> "" ->
  root_rel c data root /\
  Cli.RunCommand Cli.ClientBinaryPath
    (Cli.downloadArgs (Cli.parseRootHash (Cli.fullOutput lines)))
    ∈ Cli.main None proc /\
  exists pre seps hex rest,
    Cli.fullOutput lines
      = pre +:+ "root" +:+ seps +:+ "0x" +:+ hex +:+ rest /\
    Cli.parseRootHash (Cli.fullOutput lines) = "0x" +:+ hex /\
    seps <> "" /\ Cli.all_chars Cli.is_sep seps = true /\
    String.length hex = 64 /\ Cli.all_chars Cli.is_hex hex = true.
Proof.
  intros HU Hp Hne. split_and!.
  - by apply Upload_Ok_inv in HU as [? _].
  - destruct (main_parses_output proc lines Hp Hne) as (tail & ->).
    rewrite !elem_of_app. right. right. left.
    do 2 apply list_elem_of_further. apply list_elem_of_here.
  - by destruct (CliFacts.parseRootHash_spec (Cli.fullOutput lines)) as [?|?].
Qed.

Lemma root_typed_in_sdk_parsed_in_cli_witness :
  Upload (ideal tag_root) ∅ sample
    = (<[tag_root sample := sample]> ∅,
       [SdkUpload sample upload_option (Ok "0xtx")],
       Ok ("0xtx", tag_root sample)) /\
  Cli.parseRootHash
    (Cli.fullOutput
       ["Begin to upload file"; "Transaction submitted";
        "upload finished, root: " +:+ Cli.sample_root; "done"])
  = Cli.sample_root /\
  Cli.RunCommand Cli.ClientBinaryPath (Cli.downloadArgs Cli.sample_root)
    ∈ Cli.main None Cli.sample_proc.
Proof.
  assert (H1 : Upload (ideal tag_root) ∅ sample
    = (<[tag_root sample := sample]> ∅,
       [SdkUpload sample upload_option (Ok "0xtx")],
       Ok ("0xtx", tag_root sample))) by reflexivity.
  assert (H2 : Cli.sample_proc Cli.ClientBinaryPath Cli.uploadArgs
               = Cli.Runs ["Begin to upload file"; "Transaction submitted";
                           "upload finished, root: " +:+ Cli.sample_root;
                           "done"] None) by reflexivity.
  assert (H3 : Cli.parseRootHash
    (Cli.fullOutput
       ["Begin to upload file"; "Transaction submitted";
        "upload finished, root: " +:+ Cli.sample_root; "done"])
  = Cli.sample_root) by (vm_compute; reflexivity).
  split_and!; [exact H1|exact H3|].
  rewrite <- H3 at 1.
  refine (proj1 (proj2 (root_typed_in_sdk_parsed_in_cli
            (ideal tag_root) ∅ _ sample _ _ _ Cli.sample_proc _ H1 H2 _))).
  rewrite H3. vm_compute. discriminate.
Defined.

(** C5 (counterexample): the CLI driver takes the root it downloads from
    the third line the client printed, and reports that it has no root when
    the same upload prints no such line. *)
Lemma cli_root_comes_from_log_text :
  Cli.main None Cli.sample_proc =
    [Cli.PrintStep 1; Cli.PrintGenerated; Cli.PrintStep 2;
     Cli.RunCommand Cli.ClientBinaryPath Cli.uploadArgs;
     Cli.PrintLine "Begin to upload file";
     Cli.PrintLine "Transaction submitted";
     Cli.PrintLine ("upload finished, root: " +:+ Cli.sample_root);
     Cli.PrintLine "done";
     Cli.PrintUploaded Cli.sample_root; Cli.PrintStep 3;
     Cli.RunCommand Cli.ClientBinaryPath (Cli.downloadArgs Cli.sample_root);
     Cli.PrintLine "Succeeded to download file";
     Cli.PrintDownloaded "downloaded_test_4gb_data.bin"] /\
  Cli.main None
    (fun _ _ => Cli.Runs ["Begin to upload file"; "upload finished"] None)
  = [Cli.PrintStep 1; Cli.PrintGenerated; Cli.PrintStep 2;
     Cli.RunCommand Cli.ClientBinaryPath Cli.uploadArgs;
     Cli.PrintLine "Begin to upload file";
     Cli.PrintLine "upload finished";
     Cli.PrintNoRootHash].
Proof. split; vm_compute; reflexivity. Qed.

(** * Further facts about the SDK driver *)

Section More.
Context (c : Sdk).

Lemma upload_phase_events (n : Net c) src F s ex :
  upload_phase c n src F = (s, ex) -> Forall upload_event (st_trace s).
Proof.
  intros Hrun. unfold upload_phase in Hrun.
  assert (HU : forall n0 d n' evs r, Upload c n0 d = (n', evs, r) ->
                Forall upload_event evs).
  { intros n0 d n' evs r H.
    apply Upload_cases in H as [(e & _ & _ & -> & _)|(it & res & _ & _ & -> & _)];
      repeat constructor. }
  apply (upload_loop_rule c (fun _ t => Forall upload_event (st_trace t)))
    in Hrun as [[_ H]|(j & t & fl & _ & Ht & Hb & Hfl)]; [done| | |].
  - apply upload_body_cases in Hb as (_ & _ & Hcase).
    destruct fl as [| |e]; [done| |].
    + destruct Hcase as (_ & _ & _ & ->). apply Forall_app. by repeat constructor.
    + destruct Hcase as (_ & _ & evs & err & HUp & _ & ->).
      rewrite !Forall_app. split_and!; eauto; by repeat constructor.
  - intros j t t' Ht Hb.
    apply upload_body_cases in Hb as (_ & _ & _ & evs & tx & root & HUp & _ & ->).
    rewrite !Forall_app. split_and!; eauto; by repeat constructor.
  - by repeat constructor.
Qed.


End More.



(** X2: when the file holds at least ten full windows and the upload loop
    completes, exactly ten payloads were handed to the SDK, each a full
    window of [F] bytes, ten roots were collected, and the file is left at
    offset [10 * F]. *)
Theorem ten_full_windows_uploaded c (n : Net c) src F s :
  0 < F -> 10 * F <= length src ->
  upload_phase c n src F = (s, None) ->
  uploads (st_trace s) = fragments F src 10 /\
  Forall (fun d => length d = F) (uploads (st_trace s)) /\
  length (st_roots s) = 10 /\
  st_file s = drop (10 * F) src.
Proof.
  intros HF Hlen Hrun.
  apply upload_phase_spec in Hrun as (m & Hm & Hu & _ & _ & Hr & Hf & Hend).
  assert (m = 10) as ->.
  { destruct Hend as [?|Hnil]; [done|].
    apply (f_equal length) in Hnil. rewrite length_fragment in Hnil.
    simpl in Hnil. nia. }
  rewrite Hu. split_and!; [done| |by apply Forall2_length in Hr|done].
  apply Forall_forall. intros d Hd.
  apply list_elem_of_lookup in Hd as [j Hj].
  assert (j < 10).
  { apply lookup_lt_Some in Hj. by rewrite length_fragments in Hj. }
  rewrite fragments_lookup in Hj by done. simplify_eq.
  rewrite length_fragment. nia.
Qed.

Lemma ten_full_windows_uploaded_witness :
  0 < 1 /\ 10 * 1 <= length (sample ++ sample) /\
  length (st_roots
    (upload_phase (ideal tag_root) ∅ (sample ++ sample) 1).1) = 10.
Proof.
  split; [lia|]. split; [simpl; lia|].
  refine (proj1 (proj2 (proj2 (ten_full_windows_uploaded
            (ideal tag_root) ∅ (sample ++ sample) 1 _ _ _ _))));
    [lia | simpl; lia | vm_compute; reflexivity].
Defined.

(** X3: for a file of at most ten windows, a completed upload loop has
    collected one root per window: the file length divided by [F], rounded
    up. *)
Theorem fragment_count_rounds_up c (n : Net c) src F s :
  0 < F -> length src <= 10 * F ->
  upload_phase c n src F = (s, None) ->
  length (st_roots s) = (length src + F - 1) / F.
Proof.
  intros HF Hlen Hrun.
  apply upload_phase_spec in Hrun as (m & Hm & Hu & Hne & _ & Hr & _ & Hend).
  apply Forall2_length in Hr. rewrite length_fragments in Hr. rewrite <- Hr.
  assert (Hup : length src <= m * F).
  { destruct Hend as [->|Hnil]; [done|].
    apply (f_equal length) in Hnil. rewrite length_fragment in Hnil.
    simpl in Hnil. lia. }
  assert (Hlo : m = 0 \/ (m - 1) * F < length src).
  { destruct m as [|m]; [by left|right].
    rewrite Forall_forall in Hne.
    assert (Hn : fragment F src m <> []).
    { apply Hne, list_elem_of_lookup. exists m. apply fragments_lookup. lia. }
    assert (0 < length (fragment F src m)).
    { destruct (fragment F src m); [done|simpl; lia]. }
    rewrite length_fragment in *. replace (S m - 1) with m by lia. lia. }
  apply (Nat.div_unique _ _ _ (length src + F - 1 - m * F)); nia.
Qed.

Lemma fragment_count_rounds_up_witness :
  0 < 3 /\ length sample <= 10 * 3 /\
  length (st_roots (upload_phase (ideal tag_root) ∅ sample 3).1)
  = (length sample + 3 - 1) / 3.
Proof.
  split; [lia|]. split; [simpl; lia|].
  apply (fragment_count_rounds_up (ideal tag_root) ∅ sample 3);
    [lia | simpl; lia | vm_compute; reflexivity].
Defined.

(** X4: whatever the SDK, the file and the way the run ends, no payload
    handed to the SDK is empty or longer than the read buffer. *)
Theorem payloads_fit_the_buffer c (n : Net c) src F :
  Forall (fun d => d <> [] /\ length d <= F)
    (uploads (st_trace (upload_phase c n src F).1)).
Proof.
  destruct (upload_phase c n src F) as [s ex] eqn:Hrun. cbn [fst].
  apply upload_phase_spec in Hrun as (m & _ & -> & Hne & _).
  apply Forall_forall. intros d Hd. split.
  - rewrite Forall_forall in Hne. auto.
  - apply list_elem_of_lookup in Hd as [j Hj].
    assert (j < m).
    { apply lookup_lt_Some in Hj. by rewrite length_fragments in Hj. }
    rewrite fragments_lookup in Hj by done. simplify_eq.
    rewrite length_fragment. lia.
Qed.

Lemma download_loop_calls c : forall roots i (n : Net c),
  Forall (fun r => 10 <= String.length r) roots ->
  exists n' evs,
    download_loop c i roots n = (n', evs, None) /\
    download_calls evs = imap (fun k r => (r, outFile_of (i + k), false)) roots.
Proof.
  induction roots as [|root rest IH]; intros i n Hlen.
  - by exists n, [].
  - apply Forall_cons in Hlen as [Hr Hrest].
    cbn [download_loop]. unfold download_body, Download.
    destruct (Nat.ltb_spec (String.length root) 10) as [?|_]; [lia|].
    destruct (idx_Download c n root (outFile_of i) false) as [n1 res] eqn:Hd.
    destruct (IH (S i) n1 Hrest) as (n2 & evs & -> & Hc).
    eexists _, _. split; [done|].
    unfold download_calls in *. cbn [omap call_of]. rewrite omap_app, Hc.
    cbn [imap]. rewrite Nat.add_0_r.
    assert (Hhead : omap call_of
      (PrintDownloading (i + 1) (substring 0 10 root +:+ "...")
       :: [SdkDownload root (outFile_of i) false res] ++
          match match res with Ok _ => None | Err e => Some e end with
          | Some e => [LogDownloadFailed e]
          | None => [PrintDownloaded (outFile_of i); RemoveFile (outFile_of i)]
          end) = [(root, outFile_of i, false)]) by (by destruct res).
    rewrite Hhead. cbn [app]. f_equal.
    apply imap_ext. intros k r _. simpl. do 3 f_equal. lia.
Qed.

Lemma download_loop_short c : forall good i (n : Net c) bad rest,
  Forall (fun r => 10 <= String.length r) good ->
  String.length bad < 10 ->
  exists n' evs,
    download_loop c i (good ++ bad :: rest) n = (n', evs, Some ExitPanic) /\
    requested evs = good /\ Forall (fun e => e <> PrintBanner) evs.
Proof.
  induction good as [|root good IH]; intros i n bad rest Hlen Hbad.
  - exists n, []. cbn [app download_loop]. unfold download_body.
    destruct (Nat.ltb_spec (String.length bad) 10) as [_|?]; [|lia].
    by repeat constructor.
  - apply Forall_cons in Hlen as [Hr Hrest].
    cbn [app download_loop]. unfold download_body, Download.
    destruct (Nat.ltb_spec (String.length root) 10) as [?|_]; [lia|].
    destruct (idx_Download c n root (outFile_of i) false) as [n1 res] eqn:Hd.
    destruct (IH (S i) n1 bad rest Hrest Hbad) as (n2 & evs & -> & Hreq & Hnb).
    eexists _, _. split; [done|]. split.
    + unfold requested in *. cbn [omap request_of].
      rewrite omap_app, Hreq. by destruct res.
    + constructor; [done|]. rewrite !Forall_app. split_and!; [| |done].
      * by repeat constructor.
      * destruct res; by repeat constructor.
Qed.

Lemma app_inj_tail_s (a b t : string) : a +:+ t = b +:+ t -> a = b.
Proof.
  revert b. induction a as [|x a IH]; intros [|y b] H.
  - done.
  - apply (f_equal String.length) in H. rewrite !length_append_s in H.
    simpl in H. lia.
  - apply (f_equal String.length) in H. rewrite !length_append_s in H.
    simpl in H. lia.
  - simpl in H. injection H as -> H. f_equal. by apply IH.
Qed.

Lemma imap_index_seq {A B} (g : nat -> B) (l : list A) :
  imap (fun i _ => g i) l = g <$> seq 0 (length l).
Proof.
  revert g. induction l as [|x l IH]; intros g; [done|].
  cbn [imap length seq fmap list_fmap]. f_equal.
  rewrite (imap_ext _ (fun i _ => (g ∘ S) i)) by done.
  by rewrite IH, <- fmap_S_seq, <- list_fmap_compose.
Qed.

Lemma outFile_of_inj i j : outFile_of i = outFile_of j -> i = j.
Proof.
  unfold outFile_of. intros H.
  apply String.app_inj in H. apply app_inj_tail_s in H.
  by apply pretty_nat_inj in H.
Qed.

(** X5: when a collected root has fewer than the ten characters [main]
    prints of it, the run panics at that root: the roots before it were
    downloaded, it and the roots after it were not, and the banner is not
    printed. *)
Theorem short_root_panics c (n : Net c) src F s good bad rest :
  upload_phase c n src F = (s, None) ->
  st_roots s = good ++ bad :: rest ->
  Forall (fun r => 10 <= String.length r) good ->
  String.length bad < 10 ->
  (transfer c n src F).2 = ExitPanic /\
  requested (st_trace (transfer c n src F).1) = good /\
  (PrintBanner ∉ st_trace (transfer c n src F).1).
Proof.
  intros Hup Hroots Hgood Hbad.
  destruct (download_loop_short c good 0 (st_net s) bad rest Hgood Hbad)
    as (n' & evs & Hd & Hreq & Hnb).
  pose proof (upload_phase_quiet c n src F s _ Hup) as Hq.
  pose proof (upload_phase_events c n src F s _ Hup) as He.
  unfold transfer. rewrite Hup.
  cbn [log st_roots st_net st_file st_buffer st_trace].
  rewrite Hroots, Hd. cbn [fst snd st_trace]. split_and!.
  - done.
  - unfold requested in *. rewrite !omap_app, Hreq, (omap_None _ _ Hq). done.
  - rewrite !elem_of_app. intros [[Hin|Hin]|Hin].
    + rewrite Forall_forall in He. by apply He in Hin.
    + by apply list_elem_of_singleton in Hin.
    + rewrite Forall_forall in Hnb. by apply Hnb in Hin.
Qed.

Lemma short_root_panics_witness :
  upload_phase short_roots tt sample 3
    = ((upload_phase short_roots tt sample 3).1, None) /\
  (transfer short_roots tt sample 3).2 = ExitPanic.
Proof.
  assert (H : upload_phase short_roots tt sample 3
              = ((upload_phase short_roots tt sample 3).1, None))
    by (vm_compute; reflexivity).
  split; [exact H|].
  refine (proj1 (short_root_panics short_roots tt sample 3 _ [] "0x01"
                   ["0x01"; "0x01"] H _ _ _)).
  - vm_compute. reflexivity.
  - constructor.
  - simpl. lia.
Defined.

(** X6: when the upload loop has completed with roots of at least the ten
    characters [main] prints of them, the run calls the SDK's download once
    per collected root, in index order, without proof, the [i]-th root into
    [downloaded_chunk_<i>.bin]; no two calls share an output file. *)
Theorem one_download_per_root c (n : Net c) src F s :
  upload_phase c n src F = (s, None) ->
  Forall (fun r => 10 <= String.length r) (st_roots s) ->
  download_calls (st_trace (transfer c n src F).1)
    = imap (fun i r => (r, outFile_of i, false)) (st_roots s) /\
  NoDup ((fun call => call.1.2)
           <$> download_calls (st_trace (transfer c n src F).1)).
Proof.
  intros Hup Hlen.
  destruct (transfer_spec c n src F s Hup Hlen) as (n' & evs & Hd & ->).
  destruct (download_loop_calls c (st_roots s) 0 (st_net s) Hlen)
    as (n2 & evs2 & Hd2 & Hc).
  rewrite Hd in Hd2. injection Hd2 as <- <-.
  pose proof (upload_phase_quiet c n src F s _ Hup) as Hq.
  assert (Hcalls : download_calls
            (st_trace s ++ [PrintStep 3] ++ evs ++ [PrintBanner])
          = imap (fun i r => (r, outFile_of i, false)) (st_roots s)).
  { unfold download_calls in *. rewrite !omap_app, Hc.
    rewrite (omap_None call_of (st_trace s)).
    - cbn. by rewrite app_nil_r.
    - eapply Forall_impl; [exact Hq|]. by intros []. }
  cbn [fst st_trace]. rewrite Hcalls. split; [done|].
  rewrite fmap_imap.
  rewrite (imap_ext _ (fun i _ => outFile_of i)) by done.
  rewrite imap_index_seq.
  apply NoDup_fmap_2; [|apply NoDup_seq].
  intros i j. apply outFile_of_inj.
Qed.

Lemma one_download_per_root_witness :
  upload_phase (ideal tag_root) ∅ sample 3
    = ((upload_phase (ideal tag_root) ∅ sample 3).1, None) /\
  NoDup ((fun call => call.1.2)
           <$> download_calls
                 (st_trace (transfer (ideal tag_root) ∅ sample 3).1)).
Proof.
  assert (H : upload_phase (ideal tag_root) ∅ sample 3
              = ((upload_phase (ideal tag_root) ∅ sample 3).1, None))
    by (vm_compute; reflexivity).
  split; [exact H|].
  refine (proj2 (one_download_per_root (ideal tag_root) ∅ sample 3 _ H _)).
  vm_compute. repeat constructor.
Defined.

Lemma deferred_not_in_start (dbg : list DebugEvent) tail name :
  Forall (fun e => e <> DeferredRemove name) tail ->
  DeferredRemove name ∉ (Debug <$> dbg) ++ tail.
Proof.
  intros Ht Hin. apply elem_of_app in Hin as [Hin|Hin].
  - by apply list_elem_of_fmap in Hin as (d & ? & _).
  - rewrite Forall_forall in Ht. by apply Ht in Hin.
Qed.

Lemma finish_removes (pre : list MainEvent) c (r : State c * Exit) :
  DeferredRemove TestFileName ∉ pre ->
  DeferredRemove TestFileName ∈ (finish pre r).1 <-> r.2 <> ExitFatal.
Proof.
  intros Hpre. unfold finish. destruct r as [s ex]. cbn [fst snd].
  assert (Hbody : DeferredRemove TestFileName ∉ Body <$> st_trace s).
  { intros Hin. by apply list_elem_of_fmap in Hin as (e & ? & _). }
  destruct ex; cbn [fst]; rewrite ?elem_of_app; split; try done.
  - intros _. right. apply list_elem_of_further, list_elem_of_here.
  - tauto.
  - intros _. right. apply list_elem_of_further, list_elem_of_here.
Qed.

(** X7: [main] removes its test file exactly when it got as far as the
    transfer and the transfer did not end in [log.Fatal]: a missing key, a
    failed set-up, creation or opening, and a failed fragment upload all
    leave the file behind, a normal return and a panic remove it. *)
Theorem test_file_removed_unless_fatal (h : Host) c (n : Net c) :
  DeferredRemove TestFileName ∈ (main h c n).1 <->
  env_key h <> "" /\ must_web3 h = None /\ new_client h = None /\
  create_dummy h = None /\ open_file h = None /\
  (main_from c n (createDummyFile LargeFileSize)).2 <> ExitFatal.
Proof.
  unfold main, setupClient.
  generalize (main_from c n (createDummyFile LargeFileSize)) as r. intros r.
  generalize (debugShardedNodes (debug_new_client h) (debug_nodes h)) as dbg.
  intros dbg.
  case_bool_decide as Hkey.
  { cbn [fst]. split; [|tauto]. intros Hin.
    by apply list_elem_of_singleton in Hin. }
  destruct (must_web3 h) as [ex|].
  { cbn [fst]. split; [|by intros (_ & ? & _)]. intros Hin.
    by apply elem_of_nil in Hin. }
  destruct (new_client h) as [e|].
  { cbn [fst]. split; [|by intros (_ & _ & ? & _)]. intros Hin.
    by apply list_elem_of_singleton in Hin. }
  destruct (create_dummy h) as [e|].
  { cbn [fst]. split; [|by intros (_ & _ & _ & ? & _)]. intros Hin.
    rewrite <- app_assoc in Hin.
    eapply deferred_not_in_start in Hin; [done|]. by repeat constructor. }
  destruct (open_file h) as [e|].
  { cbn [fst]. split; [|by intros (_ & _ & _ & _ & ? & _)]. intros Hin.
    rewrite <- !app_assoc in Hin.
    eapply deferred_not_in_start in Hin; [done|]. by repeat constructor. }
  rewrite finish_removes.
  - tauto.
  - rewrite <- app_assoc. apply deferred_not_in_start. by repeat constructor.
Qed.

(** * Further facts about the CLI driver *)

Section CliMore.
Import Cli.

Lemma match_here_not_r a s :
  not_r a = true -> match_here (String a s) = None.
Proof.
  unfold not_r, match_here. intros Ha. cbn [strip_prefix].
  case_bool_decide as Heq; [|done].
  subst a. done.
Qed.

Lemma FindStringSubmatch_skip pre s :
  all_chars not_r pre = true ->
  FindStringSubmatch (pre +:+ s) = FindStringSubmatch s.
Proof.
  induction pre as [|a pre IH]; intros Hall; [done|].
  simpl in Hall. apply andb_prop in Hall as [Ha Hall].
  simpl. cbn [FindStringSubmatch].
  rewrite (match_here_not_r a) by done. by apply IH.
Qed.

Lemma FindStringSubmatch_here s whole group :
  match_here s = Some (whole, group) -> FindStringSubmatch s = [whole; group].
Proof. intros H. destruct s; cbn [FindStringSubmatch]; by rewrite H. Qed.

Lemma FindStringSubmatch_found pre s whole group :
  match_here s = Some (whole, group) ->
  exists whole' group', FindStringSubmatch (pre +:+ s) = [whole'; group'].
Proof.
  intros H. induction pre as [|a pre IH].
  - exists whole, group. by apply FindStringSubmatch_here.
  - simpl. cbn [FindStringSubmatch].
    destruct (match_here (String a (pre +:+ s))) as [[w g]|]; [by eauto|].
    exact IH.
Qed.
End CliMore.

(** X8: [parseRootHash] returns a root exactly when the text holds a match
    of the pattern: the word [root], at least one colon or white-space
    character, [0x] and 64 hexadecimal digits. *)
Theorem parseRootHash_finds_every_match log :
  Cli.parseRootHash log <> "" <->
  exists pre seps hex rest,
    log = pre +:+ "root" +:+ seps +:+ "0x" +:+ hex +:+ rest /\
    seps <> "" /\ Cli.all_chars Cli.is_sep seps = true /\
    String.length hex = 64 /\ Cli.all_chars Cli.is_hex hex = true.
Proof.
  split.
  - intros Hne.
    destruct (CliFacts.parseRootHash_spec log)
      as [?|(pre & seps & hex & rest & ? & _ & ? & ? & ? & ?)]; [done|].
    by exists pre, seps, hex, rest.
  - intros (pre & seps & hex & rest & -> & Hne & Hs & Hl & Hh).
    pose proof (CliFacts.match_here_append seps hex rest Hne Hs Hl Hh) as Hm.
    destruct (FindStringSubmatch_found pre _ _ _ Hm) as (w & g & Hf).
    destruct (CliFacts.FindStringSubmatch_spec
                (pre +:+ "root" +:+ seps +:+ "0x" +:+ hex +:+ rest))
      as [Hnil|(p & w' & g' & r' & Hf' & _ & Hm')]; [congruence|].
    unfold Cli.parseRootHash. rewrite Hf'. cbn.
    apply CliFacts.match_here_spec in Hm' as (_ & hx & _ & _ & _ & -> & _).
    done.
Qed.

Lemma FindStringSubmatch_first pre seps hex rest :
  Cli.all_chars not_r pre = true ->
  seps <> "" -> Cli.all_chars Cli.is_sep seps = true ->
  String.length hex = 64 -> Cli.all_chars Cli.is_hex hex = true ->
  Cli.FindStringSubmatch (pre +:+ "root" +:+ seps +:+ "0x" +:+ hex +:+ rest)
  = ["root" +:+ seps +:+ "0x" +:+ hex; "0x" +:+ hex].
Proof.
  intros Hpre Hne Hs Hl Hh.
  rewrite FindStringSubmatch_skip by done.
  exact (FindStringSubmatch_here _ _ _
           (CliFacts.match_here_append seps hex rest Hne Hs Hl Hh)).
Qed.

(** X9: when no letter [r] comes before it, the first match is the one
    [parseRootHash] returns, whatever follows the 64 digits. *)
Theorem parseRootHash_takes_first_match pre seps hex rest :
  Cli.all_chars not_r pre = true ->
  seps <> "" -> Cli.all_chars Cli.is_sep seps = true ->
  String.length hex = 64 -> Cli.all_chars Cli.is_hex hex = true ->
  Cli.parseRootHash (pre +:+ "root" +:+ seps +:+ "0x" +:+ hex +:+ rest)
  = "0x" +:+ hex.
Proof.
  intros Hpre Hne Hs Hl Hh. unfold Cli.parseRootHash.
  rewrite FindStringSubmatch_first by done. reflexivity.
Qed.

Lemma parseRootHash_takes_first_match_witness :
  Cli.all_chars not_r "upload finished, " = true /\
  ": " <> "" /\ Cli.all_chars Cli.is_sep ": " = true /\
  String.length
    "0123456789abcdef0123456789ABCDEF0123456789abcdef0123456789ABCDEF" = 64 /\
  Cli.all_chars Cli.is_hex
    "0123456789abcdef0123456789ABCDEF0123456789abcdef0123456789ABCDEF" = true /\
  Cli.parseRootHash
    ("upload finished, " +:+ "root" +:+ ": " +:+ "0x" +:+
     "0123456789abcdef0123456789ABCDEF0123456789abcdef0123456789ABCDEF" +:+
     "ff, done")
  = "0x" +:+
    "0123456789abcdef0123456789ABCDEF0123456789abcdef0123456789ABCDEF".
Proof.
  assert (H1 : Cli.all_chars not_r "upload finished, " = true)
    by (vm_compute; reflexivity).
  assert (H2 : ": " <> "") by discriminate.
  assert (H3 : Cli.all_chars Cli.is_sep ": " = true)
    by (vm_compute; reflexivity).
  assert (H4 : String.length
    "0123456789abcdef0123456789ABCDEF0123456789abcdef0123456789ABCDEF" = 64)
    by (vm_compute; reflexivity).
  assert (H5 : Cli.all_chars Cli.is_hex
    "0123456789abcdef0123456789ABCDEF0123456789abcdef0123456789ABCDEF" = true)
    by (vm_compute; reflexivity).
  split_and!; [exact H1|exact H2|exact H3|exact H4|exact H5|].
  exact (parseRootHash_takes_first_match _ _ _ "ff, done" H1 H2 H3 H4 H5).
Defined.

(** X10: [runCommand] joins the lines the client printed with line feeds,
    and a line feed is one of the separators of the pattern: a root printed
    at the start of the line after the word [root] is found. *)
Theorem root_found_across_line_break a hex b :
  Cli.all_chars not_r a = true ->
  String.length hex = 64 -> Cli.all_chars Cli.is_hex hex = true ->
  Cli.parseRootHash (Cli.fullOutput [a +:+ "root"; "0x" +:+ hex +:+ b])
  = "0x" +:+ hex.
Proof.
  intros Ha Hl Hh. unfold Cli.fullOutput. cbn [foldr].
  replace ((a +:+ "root") +:+ String "010" (("0x" +:+ hex +:+ b) +:+
             String "010" ""))
    with (a +:+ "root" +:+ String "010" "" +:+ "0x" +:+ hex +:+
          (b +:+ String "010" "")).
  - unfold Cli.parseRootHash.
    rewrite FindStringSubmatch_first by done. reflexivity.
  - rewrite ?append_assoc_s. simpl. by rewrite ?append_assoc_s.
Qed.

Lemma root_found_across_line_break_witness :
  Cli.all_chars not_r "the " = true /\
  String.length
    "0123456789abcdef0123456789ABCDEF0123456789abcdef0123456789ABCDEF" = 64 /\
  Cli.all_chars Cli.is_hex
    "0123456789abcdef0123456789ABCDEF0123456789abcdef0123456789ABCDEF" = true /\
  Cli.parseRootHash
    (Cli.fullOutput
       ["the " +:+ "root";
        "0x" +:+
        "0123456789abcdef0123456789ABCDEF0123456789abcdef0123456789ABCDEF"
        +:+ " stored"])
  = "0x" +:+
    "0123456789abcdef0123456789ABCDEF0123456789abcdef0123456789ABCDEF".
Proof.
  assert (H1 : Cli.all_chars not_r "the " = true) by (vm_compute; reflexivity).
  assert (H4 : String.length
    "0123456789abcdef0123456789ABCDEF0123456789abcdef0123456789ABCDEF" = 64)
    by (vm_compute; reflexivity).
  assert (H5 : Cli.all_chars Cli.is_hex
    "0123456789abcdef0123456789ABCDEF0123456789abcdef0123456789ABCDEF" = true)
    by (vm_compute; reflexivity).
  split_and!; [exact H1|exact H4|exact H5|].
  exact (root_found_across_line_break _ _ " stored" H1 H4 H5).
Defined.

Section CliOrder.
Import Cli.
Context (proc : string -> list string -> ProcRun).

Lemma parseRootHash_length log :
  parseRootHash log <> "" -> String.length (parseRootHash log) = 66.
Proof.
  intros Hne.
  destruct (CliFacts.parseRootHash_spec log)
    as [He|(pre & seps & hex & rest & _ & -> & _ & _ & Hl & _)];
    [by destruct Hne|].
  rewrite length_append_s, Hl. reflexivity.
Qed.

Lemma uploadArgs_head : exists t, uploadArgs = "upload" :: t.
Proof. eexists. reflexivity. Qed.

Lemma run_not_printed cmd args (lines : list string) :
  RunCommand cmd args ∉ PrintLine <$> lines.
Proof. intros (m & Hm & _)%list_elem_of_fmap. discriminate Hm. Qed.

(** X11: the CLI driver runs a download command only when the file was
    generated, the upload command ran to the end without an error and a
    root of 66 characters was parsed from what it printed; the command is
    the client binary and its arguments are built from that root. *)
Theorem download_command_needs_parsed_root gen cmd args :
  RunCommand cmd ("download" :: args) ∈ main gen proc ->
  gen = None /\ cmd = ClientBinaryPath /\
  exists lines,
    proc ClientBinaryPath uploadArgs = Runs lines None /\
    "download" :: args = downloadArgs (parseRootHash (fullOutput lines)) /\
    String.length (parseRootHash (fullOutput lines)) = 66.
Proof.
  unfold main, runCommand.
  destruct uploadArgs_head as [t Ht].
  revert Ht. generalize uploadArgs as ua. intros ua -> Hin.
  apply elem_of_app in Hin as [Hin|Hin];
    [apply list_elem_of_singleton in Hin; discriminate Hin|].
  destruct gen as [e|];
    [apply list_elem_of_singleton in Hin; discriminate Hin|].
  split; [reflexivity|].
  destruct (proc ClientBinaryPath ("upload" :: t)) as [e|lines wait] eqn:Hp.
  - exfalso. cbn [app] in Hin.
    repeat (apply elem_of_cons in Hin as [Hin|Hin]; [discriminate Hin|]).
    by apply elem_of_nil in Hin.
  - destruct wait as [e|].
    + exfalso.
      repeat (apply elem_of_app in Hin as [Hin|Hin] ||
              apply elem_of_cons in Hin as [Hin|Hin]);
        try discriminate Hin; try (by apply elem_of_nil in Hin).
      by apply run_not_printed in Hin.
    + case_bool_decide as Hr.
      * exfalso.
        repeat (apply elem_of_app in Hin as [Hin|Hin] ||
                apply elem_of_cons in Hin as [Hin|Hin]);
          try discriminate Hin; try (by apply elem_of_nil in Hin).
        by apply run_not_printed in Hin.
      * pose proof (parseRootHash_length _ Hr) as Hlen.
        assert (Hd : RunCommand cmd ("download" :: args)
                     = RunCommand ClientBinaryPath
                         (downloadArgs (parseRootHash (fullOutput lines)))).
        { revert Hr Hlen Hin.
          generalize (parseRootHash (fullOutput lines)) as r.
          intros r _ _ Hin.
          destruct (proc ClientBinaryPath (downloadArgs r)) as [e|l' w'];
            [|destruct w' as [e|]];
          repeat (apply elem_of_app in Hin as [Hin|Hin] ||
                  apply elem_of_cons in Hin as [Hin|Hin]);
            try discriminate Hin; try (by apply elem_of_nil in Hin);
            try (by apply run_not_printed in Hin); exact Hin. }
        assert (Hc : cmd = ClientBinaryPath) by congruence.
        assert (Ha : "download" :: args
                     = downloadArgs (parseRootHash (fullOutput lines)))
          by congruence.
        subst cmd.
        split; [reflexivity|]. exists lines. split; [reflexivity|].
        split; [exact Ha|exact Hlen].
Qed.
End CliOrder.

Lemma download_command_needs_parsed_root_witness :
  Cli.RunCommand Cli.ClientBinaryPath
    ("download" :: tail (Cli.downloadArgs Cli.sample_root))
    ∈ Cli.main None Cli.sample_proc /\
  exists lines,
    Cli.sample_proc Cli.ClientBinaryPath Cli.uploadArgs = Cli.Runs lines None /\
    "download" :: tail (Cli.downloadArgs Cli.sample_root)
      = Cli.downloadArgs (Cli.parseRootHash (Cli.fullOutput lines)) /\
    String.length (Cli.parseRootHash (Cli.fullOutput lines)) = 66.
Proof.
  assert (Hin : Cli.RunCommand Cli.ClientBinaryPath
                  ("download" :: tail (Cli.downloadArgs Cli.sample_root))
                ∈ Cli.main None Cli.sample_proc).
  { apply (list_elem_of_lookup_2 _ 10). vm_compute. reflexivity. }
  split; [exact Hin|].
  exact (proj2 (proj2 (download_command_needs_parsed_root
                         Cli.sample_proc None _ _ Hin))).
Defined.
